(** * Token cache of the scan plugin: [internal/authentication/authenticator.go]

    A shallow embedding of the [Authenticator] of the scan CLI plugin and the
    properties of its token validation, of its local token store and of the
    [GetToken] flow.

    The Go packages the file imports are kept under modules of the same
    name.  What they compute from their arguments alone is written out
    ([errors.Is], [fmt.Errorf], [time], [jwt.Claims.ValidateWithLeeway] of
    go-jose v2.6.0, the version of go.mod); what depends on the machine, on
    cryptography or on a wire format ([os], [ioutil], [encoding/json],
    [jwt.ParseSigned], [JSONWebKey.Public], the Hub client) is a member of a
    type class, so that every statement holds for whatever those calls
    return. *)

From Stdlib Require Import ZArith List Lia.
From Stdlib.Strings Require Import String Byte.
From stdpp Require Import base option list strings gmap.

Local Open Scope string_scope.
Local Open Scope Z_scope.
Local Open Scope list_scope.

(** ** Go values *)

(** [[]byte]. *)
Abbreviation bytes := (list Byte.byte) (only parsing).

(** [[]byte(s)] *)
Definition bytes_of (s : string) : bytes := list_byte_of_string s.

#[export] Instance byte_eq : EqDecision Byte.byte := Byte.byte_eq_dec.

(** ** package syscall *)
Module syscall.
Inductive Errno := ENOENT | EACCES | EISDIR | ENOTDIR | EROFS | ENOSPC | EIO.

Definition Error (e : Errno) : string :=
  match e with
  | ENOENT => "no such file or directory"
  | EACCES => "permission denied"
  | EISDIR => "is a directory"
  | ENOTDIR => "not a directory"
  | EROFS => "read-only file system"
  | ENOSPC => "no space left on device"
  | EIO => "input/output error"
  end.
End syscall.

(** ** The [error] interface

    The dynamic types of the errors that reach this package:
    [*errors.errorString] (from [errors.New], and from [fmt.Errorf] when the
    format has no [%w]), [*fmt.wrapError] (from [fmt.Errorf] with [%w]: a
    message and the wrapped error), [*fs.PathError] (from [os] and
    [ioutil]) and the sentinel [os.ErrNotExist].  A nil [error] is [None] of
    [option error]. *)
Inductive error : Type :=
  | errorString (s : string)
  | wrapError (msg : string) (err : error)
  | PathError (Op Path : string) (Err : syscall.Errno)
  | ErrNotExist.

Definition error_eq_dec (x y : error) : {x = y} + {x ≠ y}.
Proof.
  decide equality; solve [apply String.string_dec | decide equality].
Defined.

#[export] Instance error_eq : EqDecision error := error_eq_dec.

(** The method [Error() string]. *)
Definition Error (e : error) : string :=
  match e with
  | errorString s => s
  | wrapError msg _ => msg
  | PathError op path err => op +:+ " " +:+ path +:+ ": " +:+ syscall.Error err
  | ErrNotExist => "file does not exist"
  end.

(** ** package errors *)
Module errors.
(** [errors.Unwrap] *)
Definition Unwrap (e : error) : option error :=
  match e with
  | wrapError _ err => Some err
  | _ => None
  end.

(** [syscall.Errno.Is], reached through [PathError.Unwrap]: [ENOENT]
    matches [os.ErrNotExist]. *)
Definition Errno_Is (e : syscall.Errno) (target : error) : bool :=
  match e, target with
  | syscall.ENOENT, ErrNotExist => true
  | _, _ => false
  end.

(** [errors.Is] on a non-nil error: the error itself, then the chain of
    [Unwrap]. *)
Fixpoint Is_chain (e : error) (target : error) : bool :=
  if bool_decide (e = target) then true
  else match e with
       | wrapError _ err => Is_chain err target
       | PathError _ _ errno => Errno_Is errno target
       | _ => false
       end.

(** [errors.Is(err, target)]; a nil [err] matches no non-nil target. *)
Definition Is (err : option error) (target : error) : bool :=
  match err with
  | None => false
  | Some e => Is_chain e target
  end.

Definition New (text : string) : error := errorString text.
End errors.

(** ** package fmt

    [fmt.Errorf] with the three shapes of format the package uses: a
    constant, a prefix followed by [%s] and a prefix followed by [%w]. *)
Module fmt.
Definition Errorf (msg : string) : error := errorString msg.
Definition Errorf_s (prefix : string) (err : error) : error :=
  errorString (prefix +:+ Error err).
Definition Errorf_w (prefix : string) (err : error) : error :=
  wrapError (prefix +:+ Error err) err.
End fmt.

(** ** package time

    An instant is its number of nanoseconds since the Unix epoch, a
    [Duration] a number of nanoseconds.  The dates of a token are any
    [int64], and [Unix] wraps around as Go does; the reading of the clock
    and the window of one minute are far from the bounds of 64 bits, and
    their sum is taken in the integers. *)
Module time.
Abbreviation Duration := Z (only parsing).
Abbreviation Time := Z (only parsing).

Definition Nanosecond : Duration := 1.
Definition Microsecond : Duration := 1000 * Nanosecond.
Definition Millisecond : Duration := 1000 * Microsecond.
Definition Second : Duration := 1000 * Millisecond.
Definition Minute : Duration := 60 * Second.

(** The value that arithmetic on [int64] gives for the integer [z]: it
    wraps around. *)
Definition wrap64 (z : Z) : Z := (z + 2 ^ 63) mod 2 ^ 64 - 2 ^ 63.

(** The seconds from January 1, year 1 to the Unix epoch.  A [Time] keeps its
    seconds counted from year 1, in an [int64]. *)
Definition unixToInternal : Z := 62135596800.

(** [time.Unix(sec, nsec)], on [int64] arguments: [nsec] is brought into
    the range of one second, and the seconds are counted from year 1 by
    the addition of [unixToInternal], in [int64] and with no check of
    overflow.  A [sec] within [unixToInternal] of the largest [int64] so
    lands near the smallest: an instant in the far past. *)
Definition Unix (sec nsec : Z) : Time :=
  let '(sec, nsec) :=
    if bool_decide (nsec < 0) || bool_decide (1000000000 ≤ nsec)
    then
      let n := Z.quot nsec 1000000000 in
      let sec := wrap64 (sec + n) in
      let nsec := nsec - n * 1000000000 in
      if bool_decide (nsec < 0)
      then (wrap64 (sec - 1), nsec + 1000000000)
      else (sec, nsec)
    else (sec, nsec) in
  (wrap64 (sec + unixToInternal) - unixToInternal) * Second + nsec.

(** [time.Time{}], January 1, year 1, 00:00:00 UTC. *)
Definition zero : Time := Unix (-62135596800) 0.

Definition IsZero (t : Time) : bool := bool_decide (t = zero).
Definition Add (t : Time) (d : Duration) : Time := t + d.
Definition Before (t u : Time) : bool := bool_decide (t < u).
Definition After (t u : Time) : bool := bool_decide (u < t).
End time.

(** ** package jose (gopkg.in/square/go-jose.v2) *)
Module jose.
Module Header.
Record t := mk { KeyID : string; Algorithm : string }.
End Header.
Abbreviation Header := Header.t.

Module JSONWebKey.
(** [Key] is the key material, of which the package reads nothing. *)
Record t := mk { Key : bytes; KeyID : string; Algorithm : string; Use : string }.
End JSONWebKey.
Abbreviation JSONWebKey := JSONWebKey.t.

#[global] Instance JSONWebKey_eq : EqDecision JSONWebKey.
Proof. solve_decision. Defined.

Module JSONWebKeySet.
Record t := mk { Keys : list JSONWebKey }.
End JSONWebKeySet.
Abbreviation JSONWebKeySet := JSONWebKeySet.t.
End jose.

(** ** package crypto

    [crypto.PublicKey] is [interface{}]; the only values [findKey] puts in
    it are nil and a [jose.JSONWebKey]. *)
Module crypto.
Abbreviation PublicKey := (option jose.JSONWebKey) (only parsing).
End crypto.

(** ** package jwt (gopkg.in/square/go-jose.v2/jwt) *)
Module jwt.
(** [NumericDate]: seconds since the Unix epoch, an [int64]. *)
Abbreviation NumericDate := Z (only parsing).

(** The method [Time] of a non-nil [NumericDate]: [time.Unix(int64(n), 0)],
    with the wrap-around of [time.Unix]. *)
Definition NumericDate_Time (n : NumericDate) : time.Time :=
  time.Unix (time.wrap64 n) 0.

Module Claims.
Record t := mk {
  Issuer : string;
  Subject : string;
  Audience : list string;
  Expiry : option NumericDate;
  NotBefore : option NumericDate;
  IssuedAt : option NumericDate;
  ID : string
}.
End Claims.
Abbreviation Claims := Claims.t.

Module Expected.
Record t := mk {
  Issuer : string;
  Subject : string;
  Audience : list string;
  ID : string;
  Time : time.Time
}.
End Expected.
Abbreviation Expected := Expected.t.

(** [jwt.Expected{Time: t}]: every other field has its zero value. *)
Definition Expected_Time (t : time.Time) : Expected :=
  Expected.mk "" "" [] "" t.

Definition ErrInvalidIssuer : error :=
  errors.New "square/go-jose/jwt: validation failed, invalid issuer claim (iss)".
Definition ErrInvalidSubject : error :=
  errors.New "square/go-jose/jwt: validation failed, invalid subject claim (sub)".
Definition ErrInvalidAudience : error :=
  errors.New "square/go-jose/jwt: validation failed, invalid audience claim (aud)".
Definition ErrInvalidID : error :=
  errors.New "square/go-jose/jwt: validation failed, invalid ID claim (jti)".
Definition ErrNotValidYet : error :=
  errors.New "square/go-jose/jwt: validation failed, token not valid yet (nbf)".
Definition ErrExpired : error :=
  errors.New "square/go-jose/jwt: validation failed, token is expired (exp)".
Definition ErrIssuedInTheFuture : error :=
  errors.New "square/go-jose/jwt: validation field, token issued in the future (iat)".

(** [Audience.Contains] *)
Definition Audience_Contains (s : list string) (v : string) : bool :=
  bool_decide (v ∈ s).

(** The three comparisons under [if !e.Time.IsZero()]. *)
Definition validateTime (c : Claims) (t : time.Time) (leeway : time.Duration)
  : option error :=
  if match Claims.NotBefore c with
     | Some nbf => time.Before (time.Add t leeway) (NumericDate_Time nbf)
     | None => false
     end
  then Some ErrNotValidYet
  else if match Claims.Expiry c with
          | Some exp => time.After (time.Add t (- leeway)) (NumericDate_Time exp)
          | None => false
          end
  then Some ErrExpired
  else if match Claims.IssuedAt c with
          | Some iat => time.Before (time.Add t leeway) (NumericDate_Time iat)
          | None => false
          end
  then Some ErrIssuedInTheFuture
  else None.

(** [Claims.ValidateWithLeeway] *)
Definition ValidateWithLeeway (c : Claims) (e : Expected) (leeway : time.Duration)
  : option error :=
  if bool_decide (Expected.Issuer e ≠ "") && bool_decide (Expected.Issuer e ≠ Claims.Issuer c)
  then Some ErrInvalidIssuer
  else if bool_decide (Expected.Subject e ≠ "") && bool_decide (Expected.Subject e ≠ Claims.Subject c)
  then Some ErrInvalidSubject
  else if bool_decide (Expected.ID e ≠ "") && bool_decide (Expected.ID e ≠ Claims.ID c)
  then Some ErrInvalidID
  else if negb (forallb (Audience_Contains (Claims.Audience c)) (Expected.Audience e))
  then Some ErrInvalidAudience
  else if negb (time.IsZero (Expected.Time e))
  then validateTime c (Expected.Time e) leeway
  else None.

Module JSONWebToken.
(** A parsed token: its headers, and the closure that checks the
    signature under a key and decodes the payload.  [Claims key] is the
    method [Claims(key, &out)]: the claims left in [out] and the error. *)
Record t := mk {
  Headers : list jose.Header;
  Claims : crypto.PublicKey → jwt.Claims * option error
}.
End JSONWebToken.
Abbreviation JSONWebToken := JSONWebToken.t.

(** What the library computes from the token text and from key material. *)
Class Lib := {
  ParseSigned : string → JSONWebToken * option error;
  Public : jose.JSONWebKey → jose.JSONWebKey
}.
End jwt.

(** ** package os and package ioutil

    The file system is a state [FS] of which the package sees what three
    calls return.  A call that returns [(T, error)] in Go returns a pair
    here; [WriteFile] returns its error and the file system it leaves. *)
Module os.
Abbreviation FileMode := Z (only parsing).

Module FileInfo.
Record t := mk { Mode : FileMode }.
End FileInfo.
Abbreviation FileInfo := FileInfo.t.

Class Sys := {
  FS : Type;
  Stat : FS → string → FileInfo * option error;
  ReadFile : FS → string → bytes * option error;
  WriteFile : FS → string → bytes → FileMode → option error * FS
}.
End os.

(** ** package encoding/json, at the type [map[string]string]

    [Unmarshal data tokens] is [json.Unmarshal(data, &tokens)]: the map the
    call leaves in [tokens], and the error.  The map it leaves is a map
    that is not nil.  For the one content that makes it nil, the JSON value
    [null], the library reports no error and the assignment to the map in
    [updateLocalToken] panics: what is said below of a save that returns
    is said of the other contents. *)
Module json.
Class Codec := {
  Unmarshal : bytes → gmap string string → gmap string string * option error;
  Marshal : gmap string string → bytes * option error
}.
End json.

(** ** package types (github.com/docker/docker/api/types) *)
Module types.
Module AuthConfig.
Record t := mk { Username : string; Password : string }.
End AuthConfig.
Abbreviation AuthConfig := AuthConfig.t.

#[global] Instance AuthConfig_eq : EqDecision AuthConfig.
Proof. solve_decision. Defined.
End types.

(** ** package hub (internal/hub) *)
Module hub.
Module Client.
Record t := mk { Domain : string }.
End Client.
Abbreviation Client := Client.t.

(** Modelled from the spec: the client of the identity service, of which
    the repository's sources are not at hand.  It is an opaque collaborator
    with two remote calls, [Login(credentials) -> session, error] and
    [GetScanID(session) -> token string, error]. *)
Class Remote := {
  Login : Client → types.AuthConfig → string * option error;
  GetScanID : Client → string → string * option error
}.

(** A remote call that was made. *)
Inductive Call :=
  | CallLogin (c : Client) (hubAuthConfig : types.AuthConfig)
  | CallGetScanID (c : Client) (hubToken : string).
End hub.

(** ** package authentication *)

(** The world a call of the package runs in: the file system, the reading
    of the clock, and the remote calls made so far, oldest first. *)
Record World `{os.Sys} := mkWorld {
  files : os.FS;
  clock : time.Time;
  calls : list hub.Call
}.

(** Effectful code threads the world. *)
Definition M `{os.Sys} (A : Type) : Type := World → A * World.

#[export] Instance M_ret `{os.Sys} : MRet M := λ A x w, (x, w).
#[export] Instance M_bind `{os.Sys} : MBind M :=
  λ A B k m w, let '(x, w') := m w in k x w'.

Section authentication.
Context `{Sys : os.Sys} `{Codec : json.Codec} `{Lib : jwt.Lib} `{Remote : hub.Remote}.

(** *** The calls that read or change the world *)

Definition os_Stat (name : string) : M (os.FileInfo * option error) :=
  λ w, (os.Stat (files w) name, w).

Definition ioutil_ReadFile (filename : string) : M (bytes * option error) :=
  λ w, (os.ReadFile (files w) filename, w).

Definition ioutil_WriteFile (filename : string) (data : bytes) (perm : os.FileMode)
  : M (option error) :=
  λ w, let '(err, fs) := os.WriteFile (files w) filename data perm in
       (err, mkWorld _ fs (clock w) (calls w)).

Definition time_Now : M time.Time := λ w, (clock w, w).

Definition hub_Login (c : hub.Client) (hubAuthConfig : types.AuthConfig)
  : M (string * option error) :=
  λ w, (hub.Login c hubAuthConfig,
        mkWorld _ (files w) (clock w) (calls w ++ [hub.CallLogin c hubAuthConfig])).

Definition hub_GetScanID (c : hub.Client) (hubToken : string)
  : M (string * option error) :=
  λ w, (hub.GetScanID c hubToken,
        mkWorld _ (files w) (clock w) (calls w ++ [hub.CallGetScanID c hubToken])).

(** *** authenticator.go *)

Definition expirationWindow : time.Duration := 1 * time.Minute.

Record Authenticator := mkAuthenticator {
  hub : hub.Client;
  tokensPath : string;
  jwks : jose.JSONWebKeySet
}.

(** [os.FileMode(0644)] *)
Definition FileMode_0644 : os.FileMode := 6 * 64 + 4 * 8 + 4.

Definition getLocalToken (a : Authenticator) (hubAuthConfig : types.AuthConfig)
  : M string :=
  '(buf, err) ← ioutil_ReadFile (tokensPath a);
  if errors.Is err ErrNotExist then mret ""
  else
    let tokens : gmap string string := ∅ in
    let '(tokens, err) := json.Unmarshal buf tokens in
    if err is Some _ then mret ""
    else mret (default "" (tokens !! types.AuthConfig.Username hubAuthConfig)).

(** The first loop of [findKey]: [kid] after the headers were ranged over. *)
Fixpoint findKey_kid (headers : list jose.Header) (kid : string) : string :=
  match headers with
  | [] => kid
  | header :: headers =>
      if bool_decide (jose.Header.KeyID header ≠ "")
      then jose.Header.KeyID header
      else findKey_kid headers kid
  end.

(** The second loop of [findKey], and the return that follows it. *)
Fixpoint findKey_key (keys : list jose.JSONWebKey) (kid : string)
  : crypto.PublicKey * option error :=
  match keys with
  | [] => (None, Some (fmt.Errorf "invalid token: key identifier does not match"))
  | key :: keys =>
      if bool_decide (jose.JSONWebKey.KeyID key = kid)
      then (Some (jwt.Public key), None)
      else findKey_key keys kid
  end.

Definition findKey (a : Authenticator) (token : jwt.JSONWebToken)
  : crypto.PublicKey * option error :=
  let kid := findKey_kid (jwt.JSONWebToken.Headers token) "" in
  if bool_decide (kid = "")
  then (None, Some (fmt.Errorf "invalid token: key identifier does not match"))
  else findKey_key (jose.JSONWebKeySet.Keys (jwks a)) kid.

Definition checkTokenValidity (a : Authenticator) (token : string)
  : M (option error) :=
  if bool_decide (token = "") then mret (Some (fmt.Errorf "empty token"))
  else
    let '(parsedToken, err) := jwt.ParseSigned token in
    if err is Some err then mret (Some (fmt.Errorf_s "invalid token: " err))
    else
      let '(publicKey, err) := findKey a parsedToken in
      if err is Some err then mret (Some err)
      else
        let '(out, err) := jwt.JSONWebToken.Claims parsedToken publicKey in
        if err is Some err
        then mret (Some (fmt.Errorf_s
               "invalid token: signature does not match the content: " err))
        else
          now ← time_Now;
          if jwt.ValidateWithLeeway out
               (jwt.Expected_Time (time.Add now expirationWindow)) 0
             is Some err
          then mret (Some (fmt.Errorf_s "token has expired: " err))
          else mret None.

Definition negotiateScanIDToken (a : Authenticator) (hubAuthConfig : types.AuthConfig)
  : M (string * option error) :=
  '(hubToken, err) ← hub_Login (hub a) hubAuthConfig;
  if err is Some err then mret ("", Some (fmt.Errorf_w "could not login: " err))
  else
    '(token, err) ← hub_GetScanID (hub a) hubToken;
    if err is Some err
    then mret ("", Some (fmt.Errorf_w "could not get scan id: " err))
    else mret (token, None).

Definition updateLocalToken (a : Authenticator) (hubAuthConfig : types.AuthConfig)
    (token : string) : M (option error) :=
  '(stats, err) ← os_Stat (tokensPath a);
  let mode := FileMode_0644 in
  if bool_decide (err ≠ None) && negb (errors.Is err ErrNotExist) then mret err
  else
    let mode := if err is None then os.FileInfo.Mode stats else mode in
    '(buf, err) ← ioutil_ReadFile (tokensPath a);
    if bool_decide (err ≠ None) && negb (errors.Is err ErrNotExist) then mret err
    else
      let tokens : gmap string string := ∅ in
      let '(tokens, _) := json.Unmarshal buf tokens in
      let tokens := <[types.AuthConfig.Username hubAuthConfig := token]> tokens in
      let '(buf, err) := json.Marshal tokens in
      if bool_decide (err ≠ None) then mret err
      else ioutil_WriteFile (tokensPath a) buf mode.

Definition GetToken (a : Authenticator) (hubAuthConfig : types.AuthConfig)
  : M (string * option error) :=
  token ← getLocalToken a hubAuthConfig;
  err ← checkTokenValidity a token;
  if err is None then mret (token, None)
  else
    '(token, err) ← negotiateScanIDToken a hubAuthConfig;
    if err is Some err
    then mret ("", Some (fmt.Errorf_w "could not negotiate scan id token: " err))
    else
      err ← updateLocalToken a hubAuthConfig token;
      if err is Some err
      then mret ("", Some (fmt.Errorf_w "could not update local token: " err))
      else mret (token, None).
End authentication.

(** ** Specification vocabulary

    The words of the properties below, over the same interfaces. *)
Section vocabulary.
Context `{Sys : os.Sys} `{Codec : json.Codec} `{Lib : jwt.Lib} `{Remote : hub.Remote}.

(** [token] parses as the signed JWT [parsed].  The empty string is no JWT. *)
Definition parsesAs (token : string) (parsed : jwt.JSONWebToken) : Prop :=
  token ≠ "" ∧ jwt.ParseSigned token = (parsed, None).

(** The key identifier a token declares: that of the first header entry
    whose key identifier is not empty. *)
Definition keyIdentifier (parsed : jwt.JSONWebToken) : option string :=
  jose.Header.KeyID <$>
    find (λ header, bool_decide (jose.Header.KeyID header ≠ ""))
         (jwt.JSONWebToken.Headers parsed).

(** The key of the key set that has the identifier [kid]: the first one, in
    the order of the set. *)
Definition keyFor (keySet : jose.JSONWebKeySet) (kid : string)
  : option jose.JSONWebKey :=
  find (λ key, bool_decide (jose.JSONWebKey.KeyID key = kid))
       (jose.JSONWebKeySet.Keys keySet).

(** The signature of [parsed] verifies under [key], and the payload holds
    the claims [c]. *)
Definition verifiesUnder (parsed : jwt.JSONWebToken) (key : jose.JSONWebKey)
    (c : jwt.Claims) : Prop :=
  jwt.JSONWebToken.Claims parsed (Some (jwt.Public key)) = (c, None).

(** The kinds of failure of the validation, told apart the only way the
    code tells them apart: by the message of the error. *)
Definition KeyNotFound (err : error) : Prop :=
  err = fmt.Errorf "invalid token: key identifier does not match".

Definition Expired (err : error) : Prop :=
  ∃ cause, err = fmt.Errorf_s "token has expired: " cause.

(** The instant the expiry is compared with: now plus the leeway window. *)
Definition deadline (w : World) : time.Time :=
  time.Add (clock w) expirationWindow.

(** The tokens file of [a] holds the mapping [m]: it reads without error,
    and its content decodes to [m] without error. *)
Definition persisted (a : Authenticator) (w : World) (m : gmap string string)
  : Prop :=
  ∃ buf, os.ReadFile (files w) (tokensPath a) = (buf, None)
         ∧ json.Unmarshal buf ∅ = (m, None).

(** The file system keeps what is written: if [w'] is [w] after a write of
    the file [name] that reported no error, reading [name] in [w'] gives the
    bytes written. *)
Definition readsBack (w w' : World) (name : string) : Prop :=
  ∀ data perm, os.WriteFile (files w) name data perm = (None, files w')
               → os.ReadFile (files w') name = (data, None).

(** The codec gives back the mapping [m] from its encoding. *)
Definition roundTrips (m : gmap string string) : Prop :=
  ∀ data, json.Marshal m = (data, None) → json.Unmarshal data ∅ = (m, None).

(** The mapping [updateLocalToken] starts from: what decoding the bytes
    read from the tokens file leaves in an empty map. *)
Definition existingTokens (a : Authenticator) (w : World) : gmap string string :=
  (json.Unmarshal (os.ReadFile (files w) (tokensPath a)).1 ∅).1.

(** The error of the validation of the token that is cached for the user
    of [hubAuthConfig]; nil when the cached token is valid. *)
Definition cachedTokenError (a : Authenticator) (hubAuthConfig : types.AuthConfig)
    (w : World) : option error :=
  (checkTokenValidity a (getLocalToken a hubAuthConfig w).1 w).1.

(** The world [w] after the remote calls [l] were made in it. *)
Definition called (w : World) (l : list hub.Call) : World :=
  mkWorld _ (files w) (clock w) (calls w ++ l).

(** The world [w] with the file system [fs] in place of its own. *)
Definition withFiles (w : World) (fs : os.FS) : World :=
  mkWorld _ fs (clock w) (calls w).
End vocabulary.

(** ** Test doubles

    An in-memory file system, a codec that knows a few sample mappings, a
    token library that knows a few sample tokens and a Hub that knows one
    user: the inputs on which the properties below are exercised. *)
Module fixture.

(** *** The file system: a map from path to mode and content *)
Record MemFile := mkMemFile { mode : os.FileMode; data : bytes }.

(** The owner's read bit, 0400, and write bit, 0200. *)
Definition ownerRead (m : os.FileMode) : bool := Z.testbit m 8.
Definition ownerWrite (m : os.FileMode) : bool := Z.testbit m 7.

Definition mem_Stat (fs : gmap string MemFile) (name : string)
  : os.FileInfo * option error :=
  match fs !! name with
  | Some f => (os.FileInfo.mk (mode f), None)
  | None => (os.FileInfo.mk 0, Some (PathError "stat" name syscall.ENOENT))
  end.

Definition mem_ReadFile (fs : gmap string MemFile) (name : string)
  : bytes * option error :=
  match fs !! name with
  | Some f => if ownerRead (mode f) then (data f, None)
              else ([], Some (PathError "open" name syscall.EACCES))
  | None => ([], Some (PathError "open" name syscall.ENOENT))
  end.

Definition mem_WriteFile (fs : gmap string MemFile) (name : string)
    (content : bytes) (perm : os.FileMode) : option error * gmap string MemFile :=
  match fs !! name with
  | Some f => if ownerWrite (mode f)
              then (None, <[name := mkMemFile (mode f) content]> fs)
              else (Some (PathError "open" name syscall.EACCES), fs)
  | None => (None, <[name := mkMemFile perm content]> fs)
  end.

Definition sys : os.Sys :=
  {| os.FS := gmap string MemFile;
     os.Stat := mem_Stat;
     os.ReadFile := mem_ReadFile;
     os.WriteFile := mem_WriteFile |}.

(** *** The codec *)
Definition dquote : string := String (Ascii.ascii_of_nat 34) EmptyString.
Definition quoted (s : string) : string := dquote +:+ s +:+ dquote.
Definition member (kv : string * string) : string :=
  quoted kv.1 +:+ ":" +:+ quoted kv.2.

(** The JSON object of a mapping whose strings need no escape. *)
Definition text (m : gmap string string) : string :=
  "{" +:+ String.concat "," (member <$> map_to_list m) +:+ "}".

Definition mem_Marshal (m : gmap string string) : bytes * option error :=
  (bytes_of (text m), None).

(** The mappings whose text the decoder knows. *)
Definition samples : list (gmap string string) :=
  [ ∅;
    {[ "bob" := "fresh" ]};
    {[ "alice" := "stale" ]};
    {[ "alice" := "stale"; "bob" := "fresh" ]};
    {[ "alice" := "fresh" ]} ].

Definition mem_Unmarshal (content : bytes) (tokens : gmap string string)
  : gmap string string * option error :=
  match find (λ m, bool_decide (text m = string_of_list_byte content)) samples with
  | Some m => (m ∪ tokens, None)
  | None => (tokens, Some (errors.New "invalid character 'o' in literal null (expecting 'u')"))
  end.

Definition codec : json.Codec :=
  {| json.Unmarshal := mem_Unmarshal; json.Marshal := mem_Marshal |}.

(** *** The token library *)
Definition key1 : jose.JSONWebKey :=
  jose.JSONWebKey.mk (bytes_of "public key one") "k1" "RS256" "sig".
Definition key2 : jose.JSONWebKey :=
  jose.JSONWebKey.mk (bytes_of "public key two") "k2" "RS256" "sig".

Definition noClaims : jwt.Claims := jwt.Claims.mk "" "" [] None None None "".

(** A token of one header with the key identifier [kid], signed by the
    owner of [key1], with the claims [c]. *)
Definition signed (kid : string) (c : jwt.Claims) : jwt.JSONWebToken :=
  jwt.JSONWebToken.mk [jose.Header.mk kid "RS256"]
    (λ key, if bool_decide (key = Some key1) then (c, None)
            else (noClaims, Some (errors.New "square/go-jose: error in cryptographic primitive"))).

Definition claims (exp nbf : option Z) : jwt.Claims :=
  jwt.Claims.mk "hub" "bob" [] exp nbf None "".

(** The clock of the sample worlds reads 1000 s; with the window of one
    minute the deadline is 1060 s. *)
Definition mem_ParseSigned (token : string) : jwt.JSONWebToken * option error :=
  if bool_decide (token = "fresh") then (signed "k1" (claims (Some 7200) None), None)
  else if bool_decide (token = "edge") then (signed "k1" (claims (Some 1060) None), None)
  else if bool_decide (token = "stale") then (signed "k1" (claims (Some 1059) None), None)
  else if bool_decide (token = "early") then (signed "k1" (claims (Some 7200) (Some 3600)), None)
  else if bool_decide (token = "stranger") then (signed "k9" (claims (Some 7200) None), None)
  else (signed "" noClaims,
        Some (errors.New "square/go-jose: compact JWS format must have three parts")).

Definition lib : jwt.Lib :=
  {| jwt.ParseSigned := mem_ParseSigned; jwt.Public := λ key, key |}.

(** *** The Hub *)
Definition mem_Login (c : hub.Client) (hubAuthConfig : types.AuthConfig)
  : string * option error :=
  if bool_decide (hubAuthConfig = types.AuthConfig.mk "bob" "secret")
  then ("session of bob", None)
  else ("", Some (errors.New "401 Unauthorized")).

Definition mem_GetScanID (c : hub.Client) (hubToken : string) : string * option error :=
  if bool_decide (hubToken = "session of bob") then ("fresh", None)
  else ("", Some (errors.New "403 Forbidden")).

Definition remote : hub.Remote :=
  {| hub.Login := mem_Login; hub.GetScanID := mem_GetScanID |}.

(** *** Sample inputs *)
Definition path : string := "/home/bob/.docker/scan/tokens.json".

Definition authenticator : Authenticator :=
  mkAuthenticator (hub.Client.mk "hub.docker.com") path
    (jose.JSONWebKeySet.mk [key2; key1]).

Definition bob : types.AuthConfig := types.AuthConfig.mk "bob" "secret".
Definition alice : types.AuthConfig := types.AuthConfig.mk "alice" "wrong".

Definition world (fs : gmap string MemFile) : World (H := sys) :=
  mkWorld sys fs (time.Unix 1000 0) [].

(** No tokens file. *)
Definition fs_none : gmap string MemFile := ∅.
(** A tokens file with a token of alice, of mode 0600. *)
Definition fs_alice : gmap string MemFile :=
  {[ path := mkMemFile (6 * 64) (bytes_of (text {[ "alice" := "stale" ]})) ]}.
(** A tokens file with a token of bob that is still good. *)
Definition fs_bob : gmap string MemFile :=
  {[ path := mkMemFile FileMode_0644 (bytes_of (text {[ "bob" := "fresh" ]})) ]}.
(** A tokens file that is no JSON. *)
Definition fs_garbage : gmap string MemFile :=
  {[ path := mkMemFile FileMode_0644 (bytes_of "not json") ]}.
(** A tokens file of mode 0200, which its owner cannot read. *)
Definition fs_unreadable : gmap string MemFile :=
  {[ path := mkMemFile (2 * 64) (bytes_of (text {[ "alice" := "stale" ]})) ]}.
End fixture.

(** * The rest of the sources

    [NewAuthenticator] of authenticator.go, and config/config.go. *)

(** ** What the host decides

    [runtime.GOOS], the directory [cliConfig.Dir()] of the Docker
    configuration, [filepath.Join] and the quoting of the verb [%q]. *)
Module host.
Class Platform := {
  GOOS : string;
  Dir : string;
  Join : list string → string;
  Quote : string → string
}.
End host.

(** ** package os, the calls that config.go makes beside those of [os.Sys] *)
Module osdir.
Class Dirs `{os.Sys} := {
  Remove : os.FS → string → option error * os.FS;
  MkdirAll : os.FS → string → os.FileMode → option error * os.FS
}.

(** [os.IsNotExist]: it looks under a [*PathError], and not under the
    wrapping of [fmt.Errorf] or of [errors.Wrap]. *)
Definition IsNotExist (err : option error) : bool :=
  match err with
  | Some (PathError _ _ syscall.ENOENT) => true
  | Some ErrNotExist => true
  | _ => false
  end.
End osdir.

(** ** package errors of github.com/pkg/errors, v0.9.1

    [errors.Wrap(err, message)] is nil for a nil [err]; else it is a
    [*withStack] over a [*withMessage] over [err].  Both layers have the
    message [message: cause] and an [Unwrap], which is what [wrapError]
    has; the stack trace is left out. *)
Module pkgerrors.
Definition Wrap (err : option error) (message : string) : option error :=
  match err with
  | None => None
  | Some cause =>
      let msg := message +:+ ": " +:+ Error cause in
      Some (wrapError msg (wrapError msg cause))
  end.

(** [errors.Wrapf(err, format, args...)], the format already applied. *)
Definition Wrapf (err : option error) (formatted : string) : option error :=
  Wrap err formatted.
End pkgerrors.

(** ** package config *)

(** [Config] points to the binary of the scan provider. *)
Record Config := mkConfig { Path : string; Optin : bool }.

#[global] Instance Config_eq : EqDecision Config.
Proof. solve_decision. Defined.

(** [encoding/json] at the type [Config]: [UnmarshalConfig data conf] is
    [json.Unmarshal(data, &conf)], the value it leaves in [conf] and the
    error. *)
Class ConfigCodec := {
  UnmarshalConfig : bytes → Config → Config * option error;
  MarshalConfig : Config → bytes * option error
}.

Section config.
Context `{Sys : os.Sys} `{Dirs : !osdir.Dirs} `{Platform : host.Platform}
        `{CCodec : ConfigCodec}.

Definition os_Remove (name : string) : M (option error) :=
  λ w, let '(err, fs) := osdir.Remove (files w) name in
       (err, mkWorld _ fs (clock w) (calls w)).

Definition os_MkdirAll (path : string) (perm : os.FileMode) : M (option error) :=
  λ w, let '(err, fs) := osdir.MkdirAll (files w) path perm in
       (err, mkWorld _ fs (clock w) (calls w)).

(** [os.FileMode(0744)] *)
Definition FileMode_0744 : os.FileMode := 7 * 64 + 4 * 8 + 4.

(** [Config{}] *)
Definition Config_zero : Config := mkConfig "" false.

(** [filepath.Join(cliConfig.Dir(), "scan", "config.json")] *)
Definition configPath : string := host.Join [host.Dir; "scan"; "config.json"].

Definition SaveConfigFile (conf : Config) : M (option error) :=
  let '(out, err) := MarshalConfig conf in
  if bool_decide (err ≠ None) then mret err
  else
    err ← os_MkdirAll (host.Join [host.Dir; "scan"]) FileMode_0744;
    if bool_decide (err ≠ None)
    then mret (pkgerrors.Wrap err "failed to create docker scan configuration directory")
    else
      let path := host.Join [host.Dir; "scan"; "config.json"] in
      err ← ioutil_WriteFile path out FileMode_0644;
      mret (pkgerrors.Wrap err "failed to write docker scan configuration file").

(** The block of [ReadConfigFile] under the test of [runtime.GOOS]: the
    error of the creation of the initial file, nil when no file was to be
    created or the creation went well. *)
Definition ReadConfigFile_init (path : string) : M (option error) :=
  if bool_decide (host.GOOS ≠ "windows") && bool_decide (host.GOOS ≠ "darwin")
  then
    '(_, err) ← os_Stat path;
    if bool_decide (err ≠ None) && osdir.IsNotExist err
    then SaveConfigFile Config_zero
    else mret None
  else mret None.

Definition ReadConfigFile : M (Config * option error) :=
  let conf := Config_zero in
  let path := host.Join [host.Dir; "scan"; "config.json"] in
  err ← ReadConfigFile_init path;
  if bool_decide (err ≠ None)
  then mret (conf, pkgerrors.Wrapf err
               ("failed to create initial scan configuration file " +:+ host.Quote path))
  else
    '(buf, err) ← ioutil_ReadFile path;
    if bool_decide (err ≠ None)
    then
      _ ← os_Remove path;
      mret (conf, pkgerrors.Wrap err
              "failed to read docker scan configuration file. Please restart Docker Desktop")
    else
      let '(conf, err) := UnmarshalConfig buf conf in
      if bool_decide (err ≠ None)
      then
        _ ← os_Remove path;
        mret (conf, pkgerrors.Wrapf err
                ("invalid docker scan configuration file " +:+ path
                 +:+ ". Please restart Docker Desktop"))
      else mret (conf, None).
End config.

(** ** [NewAuthenticator] *)
Section constructor.
Context `{Platform : host.Platform}.

Definition NewAuthenticator (jwks : jose.JSONWebKeySet) (apiHubBaseURL : string)
  : Authenticator :=
  mkAuthenticator (hub.Client.mk apiHubBaseURL)
    (host.Join [host.Dir; "scan"; "tokens.json"]) jwks.
End constructor.

(** ** Vocabulary for config.go *)
Section config_vocabulary.
Context `{Sys : os.Sys} `{Dirs : !osdir.Dirs} `{Platform : host.Platform}
        `{CCodec : ConfigCodec}.

(** [ReadConfigFile] has no initial file to create: the host is Windows or
    macOS, or [os.Stat] does not report that the file does not exist. *)
Definition nothingToCreate (w : World) : Prop :=
  host.GOOS = "windows" ∨ host.GOOS = "darwin"
  ∨ osdir.IsNotExist (os.Stat (files w) configPath).2 = false.

(** The file system [fs'] keeps what was written to the configuration
    file: if a write of it that reported no error left [fs'], reading it in
    [fs'] gives the bytes written. *)
Definition configReadsBack (fs' : os.FS) : Prop :=
  ∀ fs data perm, os.WriteFile fs configPath data perm = (None, fs')
                  → os.ReadFile fs' configPath = (data, None).

(** The codec gives back the configuration [conf] from its encoding. *)
Definition configRoundTrips (conf : Config) : Prop :=
  ∀ data, MarshalConfig conf = (data, None)
          → UnmarshalConfig data Config_zero = (conf, None).
End config_vocabulary.

(** ** Test doubles for config.go

    Over the in-memory file system: a removal, a creation of directories
    that fails under a directory that its owner cannot write, a Linux host
    and a macOS host with the same directory, and a codec that knows two
    configurations. *)
Module fixture_config.

Definition mem_Remove (fs : gmap string fixture.MemFile) (name : string)
  : option error * gmap string fixture.MemFile :=
  match fs !! name with
  | Some _ => (None, delete name fs)
  | None => (Some (PathError "remove" name syscall.ENOENT), fs)
  end.

(** The file system keeps no directories, but for the entries that stand
    for one that is locked: the creation fails under an entry that its owner
    cannot write. *)
Definition mem_MkdirAll (fs : gmap string fixture.MemFile) (path : string)
    (perm : os.FileMode) : option error * gmap string fixture.MemFile :=
  if existsb (λ entry, String.prefix entry.1 path
                       && negb (fixture.ownerWrite (fixture.mode entry.2)))
       (map_to_list fs)
  then (Some (PathError "mkdir" path syscall.EACCES), fs)
  else (None, fs).

Definition dirs : osdir.Dirs (H := fixture.sys) :=
  @osdir.Build_Dirs fixture.sys mem_Remove mem_MkdirAll.

(** Paths that need no cleaning are joined by the separator. *)
Definition linux : host.Platform :=
  {| host.GOOS := "linux";
     host.Dir := "/home/bob/.docker";
     host.Join := String.concat "/";
     host.Quote := fixture.quoted |}.

Definition darwin : host.Platform :=
  {| host.GOOS := "darwin";
     host.Dir := "/home/bob/.docker";
     host.Join := String.concat "/";
     host.Quote := fixture.quoted |}.

(** The JSON object of a configuration whose path needs no escape. *)
Definition text (conf : Config) : string :=
  "{" +:+ fixture.quoted "path" +:+ ":" +:+ fixture.quoted (Path conf) +:+ ","
  +:+ fixture.quoted "optin" +:+ ":" +:+ (if Optin conf then "true" else "false")
  +:+ "}".

Definition mem_MarshalConfig (conf : Config) : bytes * option error :=
  (bytes_of (text conf), None).

Definition snyk : Config := mkConfig "/usr/local/bin/snyk" true.

Definition samples : list Config := [ mkConfig "" false; snyk ].

Definition mem_UnmarshalConfig (content : bytes) (conf : Config)
  : Config * option error :=
  match find (λ c, bool_decide (text c = string_of_list_byte content)) samples with
  | Some c => (c, None)
  | None => (conf, Some (errors.New "unexpected end of JSON input"))
  end.

Definition codec : ConfigCodec :=
  {| UnmarshalConfig := mem_UnmarshalConfig; MarshalConfig := mem_MarshalConfig |}.

Definition path : string := "/home/bob/.docker/scan/config.json".

(** No configuration file. *)
Definition fs_none : gmap string fixture.MemFile := ∅.
(** A configuration file with the sample configuration. *)
Definition fs_snyk : gmap string fixture.MemFile :=
  {[ path := fixture.mkMemFile FileMode_0644 (bytes_of (text snyk)) ]}.
(** A configuration file that is cut short. *)
Definition fs_cut : gmap string fixture.MemFile :=
  {[ path := fixture.mkMemFile FileMode_0644 (bytes_of "{") ]}.
(** No configuration file, and a Docker directory of mode 0555. *)
Definition fs_locked : gmap string fixture.MemFile :=
  {[ "/home/bob/.docker" := fixture.mkMemFile (5 * 64 + 5 * 8 + 5) [] ]}.

(** The error of the creation of the directory [scan] under it, and that
    error as [SaveConfigFile] returns it. *)
Definition mkdir_denied : error :=
  PathError "mkdir" "/home/bob/.docker/scan" syscall.EACCES.
Definition save_denied : error :=
  default mkdir_denied
    (pkgerrors.Wrap (Some mkdir_denied)
       "failed to create docker scan configuration directory").
End fixture_config.

(** ** More sample inputs for authenticator.go *)
Module fixture_more.

(** A second key with the identifier [k1], of another owner. *)
Definition key1_other : jose.JSONWebKey :=
  jose.JSONWebKey.mk (bytes_of "public key three") "k1" "RS256" "sig".

(** A key set in which that key comes before [fixture.key1]. *)
Definition authenticator_shadowed : Authenticator :=
  mkAuthenticator (hub.Client.mk "hub.docker.com") fixture.path
    (jose.JSONWebKeySet.mk [fixture.key2; key1_other; fixture.key1]).

(** The text of an object in which the token of bob is a number. *)
Definition text_mixed : string :=
  "{" +:+ fixture.quoted "alice" +:+ ":" +:+ fixture.quoted "stale" +:+ ","
  +:+ fixture.quoted "bob" +:+ ":42}".

(** A decoder that goes on after a value of the wrong type, as that of Go
    does: on the text above it stores the token of alice and the zero value
    for bob, and reports the error of the type.  It is the decoder of
    [fixture.codec] on every other text. *)
Definition mem_Unmarshal_mixed (content : bytes) (tokens : gmap string string)
  : gmap string string * option error :=
  if bool_decide (string_of_list_byte content = text_mixed)
  then ({[ "alice" := "stale"; "bob" := "" ]} ∪ tokens,
        Some (errors.New "json: cannot unmarshal number into Go value of type string"))
  else fixture.mem_Unmarshal content tokens.

Definition codec_mixed : json.Codec :=
  {| json.Unmarshal := mem_Unmarshal_mixed; json.Marshal := fixture.mem_Marshal |}.

(** A tokens file with that text. *)
Definition fs_mixed : gmap string fixture.MemFile :=
  {[ fixture.path := fixture.mkMemFile FileMode_0644 (bytes_of text_mixed) ]}.
End fixture_more.

(** ** A token library with a date near the largest [int64] *)
Module fixture_far.

(** The date of 1024 s before the largest [int64]. *)
Definition far : Z := 2 ^ 63 - 1024.

(** The token [far] expires at that date; the other tokens are those of
    [fixture.lib]. *)
Definition mem_ParseSigned (token : string) : jwt.JSONWebToken * option error :=
  if bool_decide (token = "far")
  then (fixture.signed "k1" (fixture.claims (Some far) None), None)
  else fixture.mem_ParseSigned token.

Definition lib : jwt.Lib :=
  {| jwt.ParseSigned := mem_ParseSigned; jwt.Public := λ key, key |}.
End fixture_far.

(** ** A codec that coerces to UTF-8

    [json.Marshal] writes the keys of a map in their order, and every string
    coerced to valid UTF-8, each invalid byte replaced by U+FFFD;
    [json.Unmarshal] keeps the last of the members of an object that have
    the same key. *)
Module fixture_utf8.

(** The byte 0xFF, which no UTF-8 text has, and the three bytes of U+FFFD. *)
Definition xFF : string := String (Ascii.ascii_of_nat 255) EmptyString.
Definition uFFFD : string :=
  String (Ascii.ascii_of_nat 239)
    (String (Ascii.ascii_of_nat 191) (String (Ascii.ascii_of_nat 189) EmptyString)).

(** The coercion, on the strings whose only invalid bytes are 0xFF. *)
Fixpoint coerce (s : string) : string :=
  match s with
  | EmptyString => EmptyString
  | String c s =>
      if bool_decide (c = Ascii.ascii_of_nat 255) then uFFFD +:+ coerce s
      else String c (coerce s)
  end.

(** The entries of a mapping in the order of their keys. *)
Fixpoint place (kv : string * string) (l : list (string * string))
  : list (string * string) :=
  match l with
  | [] => [kv]
  | x :: l' => if String.leb kv.1 x.1 then kv :: l else x :: place kv l'
  end.

Definition entries (m : gmap string string) : list (string * string) :=
  foldr place [] (map_to_list m).

(** The JSON object with the members [l], in their order. *)
Definition object (l : list (string * string)) : string :=
  "{" +:+ String.concat "," (fixture.member <$> l) +:+ "}".

Definition mem_Marshal (m : gmap string string) : bytes * option error :=
  (bytes_of (object ((λ kv, (coerce kv.1, coerce kv.2)) <$> entries m)), None).

(** The objects that the decoder knows, by their members. *)
Definition known : list (list (string * string)) :=
  [ [ ("bob", uFFFD) ];
    [ ("a" +:+ uFFFD, "old") ];
    [ ("a" +:+ uFFFD, "old"); ("a" +:+ uFFFD, "new") ] ].

Definition mem_Unmarshal (content : bytes) (tokens : gmap string string)
  : gmap string string * option error :=
  match find (λ l, bool_decide (object l = string_of_list_byte content)) known with
  | Some l => (list_to_map (reverse l) ∪ tokens, None)
  | None => (tokens, Some (errors.New "unexpected end of JSON input"))
  end.

Definition codec : json.Codec :=
  {| json.Unmarshal := mem_Unmarshal; json.Marshal := mem_Marshal |}.

(** A user whose token is the byte 0xFF. *)
Definition bob : types.AuthConfig := types.AuthConfig.mk "bob" "secret".

(** Two users whose names differ: the name of the first ends in the byte
    0xFF, that of the second in U+FFFD. *)
Definition first : types.AuthConfig := types.AuthConfig.mk ("a" +:+ xFF) "secret".
Definition second : types.AuthConfig := types.AuthConfig.mk ("a" +:+ uFFFD) "secret".

End fixture_utf8.

(** * Properties *)

Section properties.
Context `{Sys : os.Sys} `{Codec : json.Codec} `{Lib : jwt.Lib} `{Remote : hub.Remote}.

Implicit Types (a : Authenticator) (w : World) (token : string).
Implicit Types (parsed : jwt.JSONWebToken) (key : jose.JSONWebKey) (c : jwt.Claims).

(** Runs the calls on the world: unfolds the sequencing and the calls that
    read or change the world. *)
Ltac run :=
  unfold mbind, M_bind, mret, M_ret, os_Stat, ioutil_ReadFile, ioutil_WriteFile,
    time_Now, hub_Login, hub_GetScanID in *; simpl in *.

(** ** Key lookup *)

(** The first loop of [findKey] is a search for the first header entry with
    a key identifier. *)
Lemma findKey_kid_find (headers : list jose.Header) (kid : string) :
  findKey_kid headers kid =
  default kid (jose.Header.KeyID <$>
    find (λ header, bool_decide (jose.Header.KeyID header ≠ "")) headers).
Proof.
  induction headers as [|header headers IH]; simpl; [done|].
  by destruct (bool_decide (jose.Header.KeyID header ≠ "")).
Qed.

(** An identifier that the search finds is not empty. *)
Lemma keyIdentifier_nonempty parsed (kid : string) :
  keyIdentifier parsed = Some kid → kid ≠ "".
Proof.
  unfold keyIdentifier.
  destruct (find _ _) as [header|] eqn:Hfind; simpl; [|done].
  intros [= <-]. apply find_some in Hfind as [_ Hkid].
  by apply bool_decide_eq_true in Hkid.
Qed.

(** The second loop is a search of the key set, in its order. *)
Lemma findKey_key_find (keys : list jose.JSONWebKey) (kid : string) :
  findKey_key keys kid =
  match find (λ key, bool_decide (jose.JSONWebKey.KeyID key = kid)) keys with
  | Some key => (Some (jwt.Public key), None)
  | None => (None, Some (fmt.Errorf "invalid token: key identifier does not match"))
  end.
Proof.
  induction keys as [|key keys IH]; simpl; [done|].
  by destruct (bool_decide (jose.JSONWebKey.KeyID key = kid)).
Qed.

(** [findKey] in the vocabulary of the specification. *)
Lemma findKey_spec a parsed :
  findKey a parsed =
  match keyIdentifier parsed ≫= keyFor (jwks a) with
  | Some key => (Some (jwt.Public key), None)
  | None => (None, Some (fmt.Errorf "invalid token: key identifier does not match"))
  end.
Proof.
  unfold findKey. rewrite findKey_kid_find, findKey_key_find.
  destruct (keyIdentifier parsed) as [kid|] eqn:Hkid; simpl.
  - pose proof (keyIdentifier_nonempty _ _ Hkid) as Hne.
    unfold keyIdentifier in Hkid. rewrite Hkid. simpl.
    rewrite bool_decide_eq_false_2 by done. done.
  - unfold keyIdentifier in Hkid. by rewrite Hkid.
Qed.

(** ** Validation *)

(** The validation of a token that parses, from the key lookup on. *)
Lemma checkTokenValidity_parsed a w token parsed :
  parsesAs token parsed →
  checkTokenValidity a token w =
  match keyIdentifier parsed ≫= keyFor (jwks a) with
  | None => (Some (fmt.Errorf "invalid token: key identifier does not match"), w)
  | Some key =>
      match jwt.JSONWebToken.Claims parsed (Some (jwt.Public key)) with
      | (_, Some err) =>
          (Some (fmt.Errorf_s
             "invalid token: signature does not match the content: " err), w)
      | (out, None) =>
          match jwt.ValidateWithLeeway out (jwt.Expected_Time (deadline w)) 0 with
          | Some err => (Some (fmt.Errorf_s "token has expired: " err), w)
          | None => (None, w)
          end
      end
  end.
Proof.
  intros [Hne Hparse]. unfold checkTokenValidity.
  rewrite bool_decide_eq_false_2 by done.
  rewrite Hparse, findKey_spec.
  destruct (keyIdentifier parsed ≫= keyFor (jwks a)) as [key|]; [|done].
  destruct (jwt.JSONWebToken.Claims parsed _) as [out [err|]]; [done|].
  unfold deadline. run.
  by destruct (jwt.ValidateWithLeeway _ _ _).
Qed.

(** With [jwt.Expected{Time: t}] and no leeway, only the comparisons of the
    three dates with [t] are left of [ValidateWithLeeway]. *)
Lemma ValidateWithLeeway_Expected_Time c (t : Z) :
  jwt.ValidateWithLeeway c (jwt.Expected_Time t) 0 =
  if time.IsZero t then None else jwt.validateTime c t 0.
Proof.
  unfold jwt.ValidateWithLeeway, jwt.Expected_Time. simpl.
  by destruct (time.IsZero t).
Qed.

(** No header entry has a key identifier: the token declares none. *)
Lemma keyIdentifier_none parsed :
  Forall (λ header, jose.Header.KeyID header = "") (jwt.JSONWebToken.Headers parsed) →
  keyIdentifier parsed = None.
Proof.
  unfold keyIdentifier. induction 1 as [|header headers Hkid _ IH]; simpl; [done|].
  by rewrite bool_decide_eq_false_2 by (by intros []).
Qed.

(** The identifier the token declares is that of the first header entry that
    has one, whatever the entries after it say. *)
Lemma keyIdentifier_first parsed (before after : list jose.Header) (header : jose.Header) :
  jwt.JSONWebToken.Headers parsed = before ++ header :: after →
  Forall (λ header, jose.Header.KeyID header = "") before →
  jose.Header.KeyID header ≠ "" →
  keyIdentifier parsed = Some (jose.Header.KeyID header).
Proof.
  unfold keyIdentifier. intros -> Hbefore Hkid.
  induction Hbefore as [|h before Hh _ IH]; simpl.
  - by rewrite bool_decide_eq_true_2.
  - by rewrite bool_decide_eq_false_2 by (by intros []).
Qed.

(** No key of the set has the identifier: the search finds none. *)
Lemma keyFor_none (keySet : jose.JSONWebKeySet) (kid : string) :
  Forall (λ key, jose.JSONWebKey.KeyID key ≠ kid) (jose.JSONWebKeySet.Keys keySet) →
  keyFor keySet kid = None.
Proof.
  unfold keyFor. induction 1 as [|key keys Hkey _ IH]; simpl; [done|].
  by rewrite bool_decide_eq_false_2.
Qed.

(** C4. A token that is not the empty string and parses, and either has no
    header entry with a non-empty key identifier, or whose first header
    entry with a non-empty key identifier names a key that no key of the key
    set has, fails the validation with the error of the kind [KeyNotFound],
    and the world is left as it was.  The entries after that first one are
    not looked at, and nothing is asked of the closure [verify] that checks
    the signature: the answer is the same whatever it would return. *)
Theorem checkTokenValidity_key_not_found a w token
    (headers : list jose.Header)
    (verify : option jose.JSONWebKey → jwt.Claims * option error) :
  token ≠ "" →
  jwt.ParseSigned token = (jwt.JSONWebToken.mk headers verify, None) →
  Forall (λ header, jose.Header.KeyID header = "") headers
  ∨ (∃ before header after,
       headers = before ++ header :: after
       ∧ Forall (λ header, jose.Header.KeyID header = "") before
       ∧ jose.Header.KeyID header ≠ ""
       ∧ Forall (λ key, jose.JSONWebKey.KeyID key ≠ jose.Header.KeyID header)
                (jose.JSONWebKeySet.Keys (jwks a))) →
  ∃ err, checkTokenValidity a token w = (Some err, w) ∧ KeyNotFound err.
Proof.
  intros Hne Hparse Hkid.
  exists (fmt.Errorf "invalid token: key identifier does not match").
  split; [|done].
  rewrite (checkTokenValidity_parsed a w token _ (conj Hne Hparse)).
  destruct Hkid as [Hnone|(before & header & after & Heq & Hbefore & Hkid & Hkeys)].
  - by rewrite keyIdentifier_none.
  - rewrite (keyIdentifier_first _ before after header) by done. simpl.
    by rewrite keyFor_none.
Qed.

(** The date comparisons pass when the expiry is not before the instant
    compared with, and the not-before and issued-at dates are not after it. *)
Lemma validateTime_ok c (t : Z) :
  (∀ exp, jwt.Claims.Expiry c = Some exp → t ≤ jwt.NumericDate_Time exp) →
  (∀ nbf, jwt.Claims.NotBefore c = Some nbf → jwt.NumericDate_Time nbf ≤ t) →
  (∀ iat, jwt.Claims.IssuedAt c = Some iat → jwt.NumericDate_Time iat ≤ t) →
  jwt.validateTime c t 0 = None.
Proof.
  intros Hexp Hnbf Hiat. unfold jwt.validateTime, time.Before, time.After, time.Add.
  destruct (jwt.Claims.NotBefore c) as [nbf|].
  { specialize (Hnbf nbf eq_refl). rewrite bool_decide_eq_false_2 by lia.
    destruct (jwt.Claims.Expiry c) as [exp|].
    { specialize (Hexp exp eq_refl). rewrite bool_decide_eq_false_2 by lia.
      destruct (jwt.Claims.IssuedAt c) as [iat|]; [|done].
      specialize (Hiat iat eq_refl). by rewrite bool_decide_eq_false_2 by lia. }
    destruct (jwt.Claims.IssuedAt c) as [iat|]; [|done].
    specialize (Hiat iat eq_refl). by rewrite bool_decide_eq_false_2 by lia. }
  destruct (jwt.Claims.Expiry c) as [exp|].
  { specialize (Hexp exp eq_refl). rewrite bool_decide_eq_false_2 by lia.
    destruct (jwt.Claims.IssuedAt c) as [iat|]; [|done].
    specialize (Hiat iat eq_refl). by rewrite bool_decide_eq_false_2 by lia. }
  destruct (jwt.Claims.IssuedAt c) as [iat|]; [|done].
  specialize (Hiat iat eq_refl). by rewrite bool_decide_eq_false_2 by lia.
Qed.

(** An expiry before the instant compared with fails the comparisons. *)
Lemma validateTime_expired c (t exp : Z) :
  jwt.Claims.Expiry c = Some exp →
  jwt.NumericDate_Time exp < t →
  is_Some (jwt.validateTime c t 0).
Proof.
  intros Hexp Hlt. unfold jwt.validateTime, time.Before, time.After, time.Add.
  rewrite Hexp. rewrite (bool_decide_eq_true_2 (_ < t + - 0)) by lia.
  by destruct (match jwt.Claims.NotBefore c with Some _ => _ | None => _ end).
Qed.

(** C1, amended.  A token that parses as a signed JWT, whose key identifier
    is that of a key of the key set, whose signature verifies under that
    key, whose expiry is strictly later than now plus the leeway window, and
    whose not-before and issued-at dates, where it has them, are not later
    than now plus the leeway window, passes the validation: the error is
    nil.  The dates are the instants that the library makes of the claims,
    [jwt.NumericDate_Time]: the seconds of the claim after the Unix epoch,
    but for a claim within 62135596800 s of the largest [int64], of which
    [time.Unix] makes an instant in the far past. *)
Theorem checkTokenValidity_accepts a w token parsed (kid : string) key c (exp : Z) :
  parsesAs token parsed →
  keyIdentifier parsed = Some kid →
  keyFor (jwks a) kid = Some key →
  verifiesUnder parsed key c →
  jwt.Claims.Expiry c = Some exp →
  deadline w < jwt.NumericDate_Time exp →
  (∀ nbf, jwt.Claims.NotBefore c = Some nbf → jwt.NumericDate_Time nbf ≤ deadline w) →
  (∀ iat, jwt.Claims.IssuedAt c = Some iat → jwt.NumericDate_Time iat ≤ deadline w) →
  checkTokenValidity a token w = (None, w).
Proof.
  intros Hparse Hkid Hkey Hsig Hexp Hlt Hnbf Hiat.
  rewrite (checkTokenValidity_parsed a w token parsed Hparse).
  rewrite Hkid. simpl. rewrite Hkey, Hsig.
  rewrite ValidateWithLeeway_Expected_Time.
  destruct (time.IsZero (deadline w)); [done|].
  rewrite validateTime_ok; [done| |done|done].
  intros exp' Hexp'. rewrite Hexp in Hexp'. injection Hexp' as <-. lia.
Qed.

(** C2, amended.  A token with a valid signature under a key of the key set,
    whose expiry is strictly before now plus the leeway window, fails the
    validation with an error of the kind [Expired], when the clock is such
    that now plus the leeway window is not the zero instant of Go, for which
    the library compares no date. *)
Theorem checkTokenValidity_expired a w token parsed (kid : string) key c (exp : Z) :
  parsesAs token parsed →
  keyIdentifier parsed = Some kid →
  keyFor (jwks a) kid = Some key →
  verifiesUnder parsed key c →
  jwt.Claims.Expiry c = Some exp →
  jwt.NumericDate_Time exp < deadline w →
  time.IsZero (deadline w) = false →
  ∃ err, checkTokenValidity a token w = (Some err, w) ∧ Expired err.
Proof.
  intros Hparse Hkid Hkey Hsig Hexp Hlt Hzero.
  rewrite (checkTokenValidity_parsed a w token parsed Hparse).
  rewrite Hkid. simpl. rewrite Hkey, Hsig.
  rewrite ValidateWithLeeway_Expected_Time, Hzero.
  destruct (validateTime_expired c (deadline w) exp Hexp Hlt) as [cause ->].
  eexists. split; [done|]. by exists cause.
Qed.

(** ** The local token store *)

Implicit Types (hubAuthConfig : types.AuthConfig).

(** [getLocalToken] reads the world and leaves it as it was. *)
Lemma getLocalToken_world a hubAuthConfig w :
  (getLocalToken a hubAuthConfig w).2 = w.
Proof.
  unfold getLocalToken. run.
  destruct (os.ReadFile _ _) as [buf err].
  destruct (errors.Is err ErrNotExist); [done|].
  by destruct (json.Unmarshal buf ∅) as [tokens [e|]].
Qed.

(** What [getLocalToken] returns when the file holds a mapping. *)
Lemma getLocalToken_persisted a hubAuthConfig w (m : gmap string string) :
  persisted a w m →
  getLocalToken a hubAuthConfig w =
  (default "" (m !! types.AuthConfig.Username hubAuthConfig), w).
Proof.
  intros (buf & Hread & Hdecode). unfold getLocalToken. run.
  by rewrite Hread, Hdecode.
Qed.

(** C5. For every username, [getLocalToken] returns the empty string, and
    leaves the world as it was, when the tokens file is missing (the read
    fails with an error that is [os.ErrNotExist]) and when the content read
    does not decode as a map from strings to strings.  Its only result is
    the string: no error reaches the caller. *)
Theorem getLocalToken_fails_open a hubAuthConfig w (buf : list Byte.byte)
    (err : option error) :
  os.ReadFile (files w) (tokensPath a) = (buf, err) →
  errors.Is err ErrNotExist = true ∨ is_Some (json.Unmarshal buf ∅).2 →
  getLocalToken a hubAuthConfig w = ("", w).
Proof.
  intros Hread Hfail. unfold getLocalToken. run. rewrite Hread.
  destruct (errors.Is err ErrNotExist); [done|].
  destruct Hfail as [?|[e He]]; [done|].
  destruct (json.Unmarshal buf ∅) as [tokens derr]. simpl in He. by subst.
Qed.

(** [updateLocalToken], call by call. *)
Lemma updateLocalToken_unfold a hubAuthConfig token w :
  updateLocalToken a hubAuthConfig token w =
  let '(stats, serr) := os.Stat (files w) (tokensPath a) in
  if bool_decide (serr ≠ None) && negb (errors.Is serr ErrNotExist) then (serr, w)
  else
    let '(buf, rerr) := os.ReadFile (files w) (tokensPath a) in
    if bool_decide (rerr ≠ None) && negb (errors.Is rerr ErrNotExist) then (rerr, w)
    else
      let '(out, merr) :=
        json.Marshal (<[types.AuthConfig.Username hubAuthConfig := token]>
                        (json.Unmarshal buf ∅).1) in
      if bool_decide (merr ≠ None) then (merr, w)
      else
        let '(werr, fs) :=
          os.WriteFile (files w) (tokensPath a) out
            (if serr is None then os.FileInfo.Mode stats else FileMode_0644) in
        (werr, withFiles w fs).
Proof.
  unfold updateLocalToken. run.
  destruct (os.Stat _ _) as [stats serr].
  destruct (bool_decide (serr ≠ None) && negb (errors.Is serr ErrNotExist)); [done|].
  destruct (os.ReadFile _ _) as [buf rerr].
  destruct (bool_decide (rerr ≠ None) && negb (errors.Is rerr ErrNotExist)); [done|].
  destruct (json.Unmarshal buf ∅) as [tokens derr]. simpl.
  destruct (json.Marshal _) as [out merr].
  by destruct (bool_decide (merr ≠ None)).
Qed.

(** A nil error is not an early return. *)
Lemma early_return_not (err : option error) (target : error) (P : Prop) :
  bool_decide (err ≠ None) && negb (errors.Is err target) = true → err = None → P.
Proof. by intros H ->. Qed.

(** When [updateLocalToken] reports no error, it has written the encoding
    of the mapping it started from with the new entry in it, and only the
    file system of the world has changed. *)
Lemma updateLocalToken_ok a hubAuthConfig token w w' :
  updateLocalToken a hubAuthConfig token w = (None, w') →
  ∃ out perm,
    json.Marshal (<[types.AuthConfig.Username hubAuthConfig := token]>
                    (existingTokens a w)) = (out, None)
    ∧ os.WriteFile (files w) (tokensPath a) out perm = (None, files w')
    ∧ w' = withFiles w (files w').
Proof.
  rewrite updateLocalToken_unfold. unfold existingTokens.
  destruct (os.Stat _ _) as [stats serr].
  destruct (bool_decide (serr ≠ None) && negb (errors.Is serr ErrNotExist)) eqn:Hs.
  { intros [= -> _]. by eapply early_return_not. }
  destruct (os.ReadFile _ _) as [buf rerr]. simpl.
  destruct (bool_decide (rerr ≠ None) && negb (errors.Is rerr ErrNotExist)) eqn:Hr.
  { intros [= -> _]. by eapply early_return_not. }
  destruct (json.Marshal _) as [out merr].
  destruct merr as [e|]; [by rewrite bool_decide_eq_true_2|].
  rewrite bool_decide_eq_false_2 by (by intros []).
  destruct (os.WriteFile _ _ _ _) as [werr fs] eqn:Hwrite.
  intros [= -> <-]. by exists out, (if serr is None then os.FileInfo.Mode stats else FileMode_0644).
Qed.

(** After a save that reported no error, the file holds the mapping the
    save started from with the new entry in it. *)
Lemma updateLocalToken_persisted a hubAuthConfig token w w' :
  updateLocalToken a hubAuthConfig token w = (None, w') →
  readsBack w w' (tokensPath a) →
  roundTrips (<[types.AuthConfig.Username hubAuthConfig := token]> (existingTokens a w)) →
  persisted a w' (<[types.AuthConfig.Username hubAuthConfig := token]> (existingTokens a w)).
Proof.
  intros Hsave Hback Hround.
  destruct (updateLocalToken_ok _ _ _ _ _ Hsave) as (out & perm & Hout & Hwrite & _).
  exists out. split; [by eapply Hback | by apply Hround].
Qed.

(** C9, amended.  For every username and token: after a save of the token
    for the username that reported no error, [getLocalToken] for the same
    username returns the same token, when the file system gives back the
    bytes that were written and the codec gives back the mapping that was
    encoded, as [encoding/json] does for usernames and tokens that are valid
    UTF-8. *)
Theorem save_then_load a hubAuthConfig token w w' :
  updateLocalToken a hubAuthConfig token w = (None, w') →
  readsBack w w' (tokensPath a) →
  roundTrips (<[types.AuthConfig.Username hubAuthConfig := token]> (existingTokens a w)) →
  getLocalToken a hubAuthConfig w' = (token, w').
Proof.
  intros Hsave Hback Hround.
  rewrite (getLocalToken_persisted a hubAuthConfig w' _
             (updateLocalToken_persisted _ _ _ _ _ Hsave Hback Hround)).
  by rewrite lookup_insert_eq.
Qed.


(** The content that the decoder rejects as a whole.  When the tokens file
    exists and reads, but its content does not decode, the decoder reporting
    an error and having stored no entry, as it does for a text that is not
    JSON, a save whose encoding and write report no error succeeds, and what
    it writes is the encoding of the mapping with the one new entry.  When
    the file system gives back the bytes written and the codec the mapping
    encoded, the file then holds that mapping alone, and [getLocalToken]
    returns the empty string for every other username. *)
Theorem save_over_invalid_content a hubAuthConfig token w
    (stats : os.FileInfo) (buf out : list Byte.byte) (err : error) (fs' : os.FS) :
  os.Stat (files w) (tokensPath a) = (stats, None) →
  os.ReadFile (files w) (tokensPath a) = (buf, None) →
  json.Unmarshal buf ∅ = (∅, Some err) →
  json.Marshal {[ types.AuthConfig.Username hubAuthConfig := token ]} = (out, None) →
  os.WriteFile (files w) (tokensPath a) out (os.FileInfo.Mode stats) = (None, fs') →
  updateLocalToken a hubAuthConfig token w = (None, withFiles w fs')
  ∧ (readsBack w (withFiles w fs') (tokensPath a) →
     roundTrips {[ types.AuthConfig.Username hubAuthConfig := token ]} →
     persisted a (withFiles w fs') {[ types.AuthConfig.Username hubAuthConfig := token ]}
     ∧ ∀ other : types.AuthConfig,
         types.AuthConfig.Username other ≠ types.AuthConfig.Username hubAuthConfig →
         getLocalToken a other (withFiles w fs') = ("", withFiles w fs')).
Proof.
  intros Hstat Hread Hdecode Hencode Hwrite.
  assert (updateLocalToken a hubAuthConfig token w = (None, withFiles w fs')) as Hsave.
  { rewrite updateLocalToken_unfold, Hstat, Hread, Hdecode. simpl.
    rewrite insert_empty, Hencode. simpl. by rewrite Hwrite. }
  split; [done|]. intros Hback Hround.
  assert (existingTokens a w = ∅) as Hexisting.
  { unfold existingTokens. by rewrite Hread; simpl; rewrite Hdecode. }
  pose proof (updateLocalToken_persisted _ _ _ _ _ Hsave Hback) as Hm'.
  rewrite Hexisting, insert_empty in Hm'. specialize (Hm' Hround).
  split; [done|]. intros other Hother.
  rewrite (getLocalToken_persisted a other _ _ Hm').
  by rewrite lookup_singleton_ne.
Qed.

(** C7, amended.  [updateLocalToken] fails open on a missing file only.
    When [os.Stat], or else the read, fails with an error that is not
    [os.ErrNotExist], it returns that error and leaves the world as it was:
    nothing is written.  When both report [os.ErrNotExist], and decoding
    what was read leaves the mapping empty, it goes on: it writes the
    encoding of the mapping with the one new entry, with the mode 0644. *)
Theorem updateLocalToken_read_failure a hubAuthConfig token w
    (stats : os.FileInfo) (serr rerr : option error) (buf : list Byte.byte) :
  os.Stat (files w) (tokensPath a) = (stats, serr) →
  os.ReadFile (files w) (tokensPath a) = (buf, rerr) →
  (∀ e, serr = Some e → errors.Is serr ErrNotExist = false →
        updateLocalToken a hubAuthConfig token w = (Some e, w))
  ∧ (∀ e, serr = None ∨ errors.Is serr ErrNotExist = true →
          rerr = Some e → errors.Is rerr ErrNotExist = false →
          updateLocalToken a hubAuthConfig token w = (Some e, w))
  ∧ (∀ out, errors.Is serr ErrNotExist = true → errors.Is rerr ErrNotExist = true →
            (json.Unmarshal buf ∅).1 = ∅ →
            json.Marshal {[ types.AuthConfig.Username hubAuthConfig := token ]} = (out, None) →
            updateLocalToken a hubAuthConfig token w =
            ioutil_WriteFile (tokensPath a) out FileMode_0644 w).
Proof.
  intros Hstat Hread. rewrite updateLocalToken_unfold, Hstat, Hread.
  split; [|split].
  - intros e -> ->. by rewrite bool_decide_eq_true_2.
  - intros e Hs -> ->.
    replace (bool_decide (serr ≠ None) && negb (errors.Is serr ErrNotExist)) with false
      by (by destruct Hs as [->| ->]; [|rewrite andb_false_r]).
    by rewrite bool_decide_eq_true_2.
  - intros out Hs Hr Hempty Hencode. rewrite Hs, Hr, !andb_false_r, Hempty.
    rewrite insert_empty, Hencode. simpl.
    destruct serr as [e|]; [|done]. run. unfold withFiles.
    by destruct (os.WriteFile _ _ _ _).
Qed.

(** ** The flow of [GetToken] *)

(** The validation reads the clock and leaves the world as it was. *)
Lemma checkTokenValidity_world a token w :
  (checkTokenValidity a token w).2 = w.
Proof.
  unfold checkTokenValidity. run.
  destruct (bool_decide (token = "")); [done|].
  destruct (jwt.ParseSigned token) as [parsed [e|]]; [done|].
  destruct (findKey a parsed) as [publicKey [e|]]; [done|].
  destruct (jwt.JSONWebToken.Claims parsed publicKey) as [out [e|]]; [done|].
  by destruct (jwt.ValidateWithLeeway _ _ _).
Qed.

(** The negotiation: one login, and one exchange when the login gave a
    session. *)
Lemma negotiateScanIDToken_unfold a hubAuthConfig w :
  negotiateScanIDToken a hubAuthConfig w =
  match hub.Login (hub a) hubAuthConfig with
  | (_, Some err) =>
      (("", Some (fmt.Errorf_w "could not login: " err)),
       called w [hub.CallLogin (hub a) hubAuthConfig])
  | (hubToken, None) =>
      match hub.GetScanID (hub a) hubToken with
      | (_, Some err) =>
          (("", Some (fmt.Errorf_w "could not get scan id: " err)),
           called w [hub.CallLogin (hub a) hubAuthConfig;
                     hub.CallGetScanID (hub a) hubToken])
      | (token, None) =>
          ((token, None),
           called w [hub.CallLogin (hub a) hubAuthConfig;
                     hub.CallGetScanID (hub a) hubToken])
      end
  end.
Proof.
  unfold negotiateScanIDToken, called. run.
  destruct (hub.Login _ _) as [hubToken [e|]]; [done|].
  destruct (hub.GetScanID _ _) as [token [e|]]; simpl; by rewrite <- app_assoc.
Qed.

(** [GetToken], step by step. *)
Lemma GetToken_unfold a hubAuthConfig w :
  GetToken a hubAuthConfig w =
  let cached := (getLocalToken a hubAuthConfig w).1 in
  match (checkTokenValidity a cached w).1 with
  | None => ((cached, None), w)
  | Some _ =>
      match negotiateScanIDToken a hubAuthConfig w with
      | ((_, Some err), w1) =>
          (("", Some (fmt.Errorf_w "could not negotiate scan id token: " err)), w1)
      | ((token, None), w1) =>
          match updateLocalToken a hubAuthConfig token w1 with
          | (Some err, w2) =>
              (("", Some (fmt.Errorf_w "could not update local token: " err)), w2)
          | (None, w2) => ((token, None), w2)
          end
      end
  end.
Proof.
  unfold GetToken. unfold mbind at 1, M_bind at 1.
  pose proof (getLocalToken_world a hubAuthConfig w) as Hload.
  destruct (getLocalToken a hubAuthConfig w) as [cached w0]. simpl in Hload. subst w0.
  unfold mbind at 1, M_bind at 1. simpl.
  pose proof (checkTokenValidity_world a cached w) as Hcheck.
  destruct (checkTokenValidity a cached w) as [verr w0]. simpl in Hcheck. subst w0.
  destruct verr as [verr|]; [|done]. simpl.
  unfold mbind at 1, M_bind at 1.
  destruct (negotiateScanIDToken a hubAuthConfig w) as [[token [e|]] w1]; [done|].
  unfold mbind at 1, M_bind at 1.
  by destruct (updateLocalToken a hubAuthConfig token w1) as [[e|] w2].
Qed.

(** A save makes no remote call. *)
Lemma updateLocalToken_calls a hubAuthConfig token w :
  calls (updateLocalToken a hubAuthConfig token w).2 = calls w.
Proof.
  rewrite updateLocalToken_unfold.
  destruct (os.Stat _ _) as [stats serr].
  destruct (bool_decide (serr ≠ None) && negb (errors.Is serr ErrNotExist)); [done|].
  destruct (os.ReadFile _ _) as [buf rerr].
  destruct (bool_decide (rerr ≠ None) && negb (errors.Is rerr ErrNotExist)); [done|].
  destruct (json.Marshal _) as [out merr].
  destruct (bool_decide (merr ≠ None)); [done|].
  by destruct (os.WriteFile _ _ _ _).
Qed.

(** C3. [GetToken] loads the token cached for the username and validates
    it.  When the validation succeeds, it returns the cached token and the
    world is as it was: no remote call was made.  When the validation fails,
    for whatever reason, it calls [Login], then [GetScanID] with the session
    obtained, saves the fresh token under the username and returns it, these
    two calls being the only remote calls made.  Nothing is tried twice: a
    failed validation leads to exactly one [Login], followed by one
    [GetScanID] if and only if the login reported no error, and the failure
    of either call is returned at once, with no token. *)
Theorem GetToken_flow a hubAuthConfig w :
  (cachedTokenError a hubAuthConfig w = None →
     GetToken a hubAuthConfig w = (((getLocalToken a hubAuthConfig w).1, None), w))
  ∧ (∀ (hubToken fresh : string) (w' : World),
       is_Some (cachedTokenError a hubAuthConfig w) →
       hub.Login (hub a) hubAuthConfig = (hubToken, None) →
       hub.GetScanID (hub a) hubToken = (fresh, None) →
       updateLocalToken a hubAuthConfig fresh
         (called w [hub.CallLogin (hub a) hubAuthConfig;
                    hub.CallGetScanID (hub a) hubToken]) = (None, w') →
       GetToken a hubAuthConfig w = ((fresh, None), w')
       ∧ calls w' = calls w ++ [hub.CallLogin (hub a) hubAuthConfig;
                                hub.CallGetScanID (hub a) hubToken])
  ∧ (is_Some (cachedTokenError a hubAuthConfig w) →
       calls (GetToken a hubAuthConfig w).2 =
       calls w ++ hub.CallLogin (hub a) hubAuthConfig ::
         (if (hub.Login (hub a) hubAuthConfig).2 is None
          then [hub.CallGetScanID (hub a) (hub.Login (hub a) hubAuthConfig).1]
          else []))
  ∧ (∀ (hubToken : string) (e : error),
       is_Some (cachedTokenError a hubAuthConfig w) →
       hub.Login (hub a) hubAuthConfig = (hubToken, Some e) →
       GetToken a hubAuthConfig w =
       (("", Some (fmt.Errorf_w "could not negotiate scan id token: "
                     (fmt.Errorf_w "could not login: " e))),
        called w [hub.CallLogin (hub a) hubAuthConfig]))
  ∧ (∀ (hubToken token : string) (e : error),
       is_Some (cachedTokenError a hubAuthConfig w) →
       hub.Login (hub a) hubAuthConfig = (hubToken, None) →
       hub.GetScanID (hub a) hubToken = (token, Some e) →
       GetToken a hubAuthConfig w =
       (("", Some (fmt.Errorf_w "could not negotiate scan id token: "
                     (fmt.Errorf_w "could not get scan id: " e))),
        called w [hub.CallLogin (hub a) hubAuthConfig;
                  hub.CallGetScanID (hub a) hubToken])).
Proof.
  unfold cachedTokenError.
  rewrite GetToken_unfold, negotiateScanIDToken_unfold. simpl.
  destruct (checkTokenValidity a _ w).1 as [verr|].
  2: { split; [done|]. by repeat split; intros; exfalso; eapply is_Some_None. }
  split; [done|]. split; [|split; [|split]].
  - intros hubToken fresh w' _ Hlogin Hscan Hsave.
    rewrite Hlogin, Hscan, Hsave. split; [done|].
    pose proof (updateLocalToken_calls a hubAuthConfig fresh
                  (called w [hub.CallLogin (hub a) hubAuthConfig;
                             hub.CallGetScanID (hub a) hubToken])) as Hcalls.
    by rewrite Hsave in Hcalls.
  - intros _. destruct (hub.Login _ _) as [hubToken [e|]]; [done|]. simpl.
    destruct (hub.GetScanID _ _) as [fresh [e|]]; [done|].
    pose proof (updateLocalToken_calls a hubAuthConfig fresh
                  (called w [hub.CallLogin (hub a) hubAuthConfig;
                             hub.CallGetScanID (hub a) hubToken])) as Hcalls.
    by destruct (updateLocalToken _ _ _ _) as [[e|] w2].
  - intros hubToken e _ Hlogin. by rewrite Hlogin.
  - intros hubToken token e _ Hlogin Hscan. by rewrite Hlogin, Hscan.
Qed.

(** C6. When the validation of the cached token fails, the negotiation
    gives a fresh token, and the save of the fresh token fails, [GetToken]
    returns the empty string for the token and an error that wraps the
    error of the save: the fresh token does not reach the caller. *)
Theorem GetToken_persist_failure a hubAuthConfig w (fresh : string)
    (w1 w2 : World) (e : error) :
  is_Some (cachedTokenError a hubAuthConfig w) →
  negotiateScanIDToken a hubAuthConfig w = ((fresh, None), w1) →
  updateLocalToken a hubAuthConfig fresh w1 = (Some e, w2) →
  ∃ err, GetToken a hubAuthConfig w = (("", Some err), w2)
         ∧ err = fmt.Errorf_w "could not update local token: " e
         ∧ errors.Unwrap err = Some e.
Proof.
  unfold cachedTokenError. intros [verr Hverr] Hnegotiate Hsave.
  exists (fmt.Errorf_w "could not update local token: " e).
  split; [|done].
  rewrite GetToken_unfold. simpl. by rewrite Hverr, Hnegotiate, Hsave.
Qed.

End properties.

(** * Further properties of authenticator.go *)

Section more_properties.
Context `{Sys : os.Sys} `{Codec : json.Codec} `{Lib : jwt.Lib} `{Remote : hub.Remote}.

Implicit Types (a : Authenticator) (w : World) (token : string).
Implicit Types (parsed : jwt.JSONWebToken) (key : jose.JSONWebKey) (c : jwt.Claims).
Implicit Types (hubAuthConfig : types.AuthConfig).

(** ** Key lookup *)

(** A key that the search of the key set finds is in the set and has the
    identifier searched for. *)
Lemma keyFor_found (keySet : jose.JSONWebKeySet) (kid : string) key :
  keyFor keySet kid = Some key →
  key ∈ jose.JSONWebKeySet.Keys keySet ∧ jose.JSONWebKey.KeyID key = kid.
Proof.
  unfold keyFor. intros Hfind. apply find_some in Hfind as [Hin Hkid].
  split; [by apply list_elem_of_In | by apply bool_decide_eq_true in Hkid].
Qed.

(** An identifier that a token declares is that of one of its headers. *)
Lemma keyIdentifier_header parsed (kid : string) :
  keyIdentifier parsed = Some kid →
  ∃ header, header ∈ jwt.JSONWebToken.Headers parsed ∧ jose.Header.KeyID header = kid.
Proof.
  unfold keyIdentifier.
  destruct (find _ _) as [header|] eqn:Hfind; simpl; [|done].
  intros [= <-]. apply find_some in Hfind as [Hin _].
  exists header. split; [by apply list_elem_of_In | done].
Qed.

(** Among keys of the set with the same identifier, the first is found. *)
Lemma keyFor_first (keySet : jose.JSONWebKeySet) (kid : string) key
    (before after : list jose.JSONWebKey) :
  jose.JSONWebKeySet.Keys keySet = before ++ key :: after →
  Forall (λ k, jose.JSONWebKey.KeyID k ≠ kid) before →
  jose.JSONWebKey.KeyID key = kid →
  keyFor keySet kid = Some key.
Proof.
  unfold keyFor. intros -> Hbefore Hkid.
  induction Hbefore as [|k before Hk _ IH]; simpl.
  - by rewrite bool_decide_eq_true_2.
  - by rewrite bool_decide_eq_false_2.
Qed.

(** X1. [findKey] returns either a key and a nil error, or a nil key and
    the one error it has.  A key it returns is the public part of a key of
    the key set whose identifier is not empty and is the identifier of a
    header of the token. *)
Theorem findKey_sound a parsed :
  (∃ key, findKey a parsed = (Some (jwt.Public key), None)
          ∧ key ∈ jose.JSONWebKeySet.Keys (jwks a)
          ∧ jose.JSONWebKey.KeyID key ≠ ""
          ∧ ∃ header, header ∈ jwt.JSONWebToken.Headers parsed
                      ∧ jose.Header.KeyID header = jose.JSONWebKey.KeyID key)
  ∨ findKey a parsed
    = (None, Some (fmt.Errorf "invalid token: key identifier does not match")).
Proof.
  rewrite findKey_spec.
  destruct (keyIdentifier parsed) as [kid|] eqn:Hkid; simpl; [|by right].
  destruct (keyFor (jwks a) kid) as [key|] eqn:Hkey; [|by right].
  left. exists key. apply keyFor_found in Hkey as [Hin <-].
  split; [done|]. split; [done|]. split.
  - by eapply keyIdentifier_nonempty.
  - by apply keyIdentifier_header.
Qed.

(** X2. When several keys of the key set have the identifier that the token
    declares, [findKey] returns the first of them in the order of the set,
    whatever comes after it. *)
Theorem findKey_first_match a parsed (kid : string) key
    (before after : list jose.JSONWebKey) :
  keyIdentifier parsed = Some kid →
  jose.JSONWebKeySet.Keys (jwks a) = before ++ key :: after →
  Forall (λ k, jose.JSONWebKey.KeyID k ≠ kid) before →
  jose.JSONWebKey.KeyID key = kid →
  findKey a parsed = (Some (jwt.Public key), None).
Proof.
  intros Hkid Hkeys Hbefore Hkey. rewrite findKey_spec, Hkid. simpl.
  by rewrite (keyFor_first _ kid key before after).
Qed.

(** ** Validation *)

(** The instant of a date that is not within [time.unixToInternal] of the
    bounds of [int64] is its seconds after the Unix epoch. *)
Lemma NumericDate_Time_seconds (n : Z) :
  - 2 ^ 63 ≤ n →
  n + time.unixToInternal < 2 ^ 63 →
  jwt.NumericDate_Time n = n * time.Second.
Proof.
  intros Hlo Hhi. unfold jwt.NumericDate_Time, time.Unix, time.wrap64 in *.
  unfold time.unixToInternal in *. simpl.
  rewrite (Z.mod_small (n + 2 ^ 63)) by lia.
  replace (n + 2 ^ 63 - 2 ^ 63) with n by lia.
  rewrite Z.mod_small by lia. lia.
Qed.

(** The instant of a date within [time.unixToInternal] of the largest
    [int64] is before year 1, so before the instant of every clock. *)
Lemma NumericDate_Time_wraps (n : Z) :
  2 ^ 63 - time.unixToInternal ≤ n →
  n < 2 ^ 63 →
  jwt.NumericDate_Time n = (n - 2 ^ 64) * time.Second.
Proof.
  intros Hlo Hhi. unfold jwt.NumericDate_Time, time.Unix, time.wrap64 in *.
  unfold time.unixToInternal in *. simpl.
  rewrite (Z.mod_small (n + 2 ^ 63)) by lia.
  replace (n + 2 ^ 63 - 2 ^ 63) with n by lia.
  replace (n + 62135596800 + 2 ^ 63) with ((n + 62135596800 - 2 ^ 63) + 1 * 2 ^ 64) by lia.
  rewrite Z.mod_add by lia. rewrite Z.mod_small by lia. lia.
Qed.

(** Passing the date comparisons bounds the three dates. *)
Lemma validateTime_passed c (t : Z) :
  jwt.validateTime c t 0 = None →
  (∀ exp, jwt.Claims.Expiry c = Some exp → t ≤ jwt.NumericDate_Time exp)
  ∧ (∀ nbf, jwt.Claims.NotBefore c = Some nbf → jwt.NumericDate_Time nbf ≤ t)
  ∧ (∀ iat, jwt.Claims.IssuedAt c = Some iat → jwt.NumericDate_Time iat ≤ t).
Proof.
  unfold jwt.validateTime, time.Before, time.After, time.Add. intros Hpass.
  repeat split.
  - intros exp Hexp. rewrite Hexp in Hpass.
    destruct (match jwt.Claims.NotBefore c with Some _ => _ | None => _ end); [done|].
    case_bool_decide; [done|]. lia.
  - intros nbf Hnbf. rewrite Hnbf in Hpass. case_bool_decide; [done|]. lia.
  - intros iat Hiat. rewrite Hiat in Hpass.
    destruct (match jwt.Claims.NotBefore c with Some _ => _ | None => _ end); [done|].
    destruct (match jwt.Claims.Expiry c with Some _ => _ | None => _ end); [done|].
    case_bool_decide; [done|]. lia.
Qed.

(** X3. The validation accepts nothing it has not checked.  When
    [checkTokenValidity] returns nil, the token is not empty and parses, the
    first non-empty key identifier of its headers is that of a key of the
    key set, its signature verifies under the first key of the set with that
    identifier, and, unless now plus the leeway window is the zero instant,
    its expiry is not before now plus the leeway window and its not-before
    and issued-at dates are not after it. *)
Theorem checkTokenValidity_sound a w w' token :
  checkTokenValidity a token w = (None, w') →
  ∃ parsed (kid : string) key c,
    parsesAs token parsed
    ∧ keyIdentifier parsed = Some kid
    ∧ keyFor (jwks a) kid = Some key
    ∧ key ∈ jose.JSONWebKeySet.Keys (jwks a)
    ∧ verifiesUnder parsed key c
    ∧ (time.IsZero (deadline w) = false →
       (∀ exp, jwt.Claims.Expiry c = Some exp → deadline w ≤ jwt.NumericDate_Time exp)
       ∧ (∀ nbf, jwt.Claims.NotBefore c = Some nbf → jwt.NumericDate_Time nbf ≤ deadline w)
       ∧ (∀ iat, jwt.Claims.IssuedAt c = Some iat → jwt.NumericDate_Time iat ≤ deadline w)).
Proof.
  intros Hok.
  destruct (decide (token = "")) as [->|Hne]; [done|].
  destruct (jwt.ParseSigned token) as [parsed perr] eqn:Hparse.
  destruct perr as [e|].
  { unfold checkTokenValidity in Hok.
    rewrite bool_decide_eq_false_2, Hparse in Hok by done. done. }
  rewrite (checkTokenValidity_parsed a w token parsed (conj Hne Hparse)) in Hok.
  destruct (keyIdentifier parsed) as [kid|] eqn:Hkid; simpl in Hok; [|done].
  destruct (keyFor (jwks a) kid) as [key|] eqn:Hkey; [|done].
  destruct (jwt.JSONWebToken.Claims parsed _) as [c [e|]] eqn:Hsig; [done|].
  rewrite ValidateWithLeeway_Expected_Time in Hok.
  exists parsed, kid, key, c.
  split; [done|]. split; [done|]. split; [done|].
  split; [by apply keyFor_found in Hkey as [Hin _]|]. split; [done|].
  intros Hzero. rewrite Hzero in Hok.
  destruct (jwt.validateTime c (deadline w) 0) eqn:Hv; [done|].
  by apply validateTime_passed.
Qed.

(** X4. A token that parses and names a key of the key set, but whose
    signature does not verify under that key, fails the validation with the
    error of the signature, whatever its claims and whatever the clock; the
    world is left as it was. *)
Theorem checkTokenValidity_signature_invalid a w token parsed (kid : string) key c
    (e : error) :
  parsesAs token parsed →
  keyIdentifier parsed = Some kid →
  keyFor (jwks a) kid = Some key →
  jwt.JSONWebToken.Claims parsed (Some (jwt.Public key)) = (c, Some e) →
  checkTokenValidity a token w
  = (Some (fmt.Errorf_s "invalid token: signature does not match the content: " e), w).
Proof.
  intros Hparse Hkid Hkey Hsig.
  rewrite (checkTokenValidity_parsed a w token parsed Hparse).
  rewrite Hkid. simpl. by rewrite Hkey, Hsig.
Qed.

(** No token passes the validation against an empty key set. *)
Lemma checkTokenValidity_no_keys a w token :
  jose.JSONWebKeySet.Keys (jwks a) = [] →
  is_Some (checkTokenValidity a token w).1.
Proof.
  intros Hkeys.
  destruct (decide (token = "")) as [->|Hne]; [by eexists|].
  destruct (jwt.ParseSigned token) as [parsed perr] eqn:Hparse.
  destruct perr as [e|].
  { unfold checkTokenValidity.
    rewrite bool_decide_eq_false_2, Hparse by done. by eexists. }
  rewrite (checkTokenValidity_parsed a w token parsed (conj Hne Hparse)).
  assert (keyIdentifier parsed ≫= keyFor (jwks a) = None) as ->; [|by eexists].
  destruct (keyIdentifier parsed) as [kid|]; [|done]. simpl.
  unfold keyFor. by rewrite Hkeys.
Qed.

(** ** The flow of [GetToken] *)

(** When the cached token fails the validation, [GetToken] is the
    negotiation followed by the save. *)
Lemma GetToken_miss a hubAuthConfig w :
  is_Some (cachedTokenError a hubAuthConfig w) →
  GetToken a hubAuthConfig w =
  match negotiateScanIDToken a hubAuthConfig w with
  | ((_, Some err), w1) =>
      (("", Some (fmt.Errorf_w "could not negotiate scan id token: " err)), w1)
  | ((token, None), w1) =>
      match updateLocalToken a hubAuthConfig token w1 with
      | (Some err, w2) =>
          (("", Some (fmt.Errorf_w "could not update local token: " err)), w2)
      | (None, w2) => ((token, None), w2)
      end
  end.
Proof.
  unfold cachedTokenError. intros [verr Hverr].
  rewrite GetToken_unfold. simpl. by rewrite Hverr.
Qed.

(** When the cached token passes the validation, [GetToken] returns it. *)
Lemma GetToken_hit a hubAuthConfig w :
  cachedTokenError a hubAuthConfig w = None →
  GetToken a hubAuthConfig w = (((getLocalToken a hubAuthConfig w).1, None), w).
Proof.
  unfold cachedTokenError. intros Hverr.
  rewrite GetToken_unfold. simpl. by rewrite Hverr.
Qed.

(** A failed validation of the cached token is followed by a login. *)
Lemma GetToken_login_first a hubAuthConfig w :
  is_Some (cachedTokenError a hubAuthConfig w) →
  ∃ rest, calls (GetToken a hubAuthConfig w).2
          = calls w ++ hub.CallLogin (hub a) hubAuthConfig :: rest.
Proof.
  intros Hmiss. rewrite (GetToken_miss _ _ _ Hmiss), negotiateScanIDToken_unfold.
  destruct (hub.Login _ _) as [hubToken [e|]]; [by exists []|].
  exists [hub.CallGetScanID (hub a) hubToken].
  destruct (hub.GetScanID _ _) as [fresh [e|]]; [done|].
  pose proof (updateLocalToken_calls a hubAuthConfig fresh
                (called w [hub.CallLogin (hub a) hubAuthConfig;
                           hub.CallGetScanID (hub a) hubToken])) as Hcalls.
  by destruct (updateLocalToken _ _ _ _) as [[e|] w2].
Qed.

(** X5. With an empty key set no cached token is accepted: every call of
    [GetToken] logs in, whatever the tokens file holds. *)
Theorem GetToken_no_keys a hubAuthConfig w :
  jose.JSONWebKeySet.Keys (jwks a) = [] →
  is_Some (cachedTokenError a hubAuthConfig w)
  ∧ ∃ rest, calls (GetToken a hubAuthConfig w).2
            = calls w ++ hub.CallLogin (hub a) hubAuthConfig :: rest.
Proof.
  intros Hkeys.
  assert (is_Some (cachedTokenError a hubAuthConfig w)) as Hmiss
    by (by apply checkTokenValidity_no_keys).
  split; [done | by apply GetToken_login_first].
Qed.

(** X6. When the tokens file is missing, or its content does not decode, or
    the mapping it holds has no token for the user or the empty string,
    the validation fails on the empty token without parsing anything, and
    [GetToken] logs in. *)
Theorem GetToken_cache_miss a hubAuthConfig w (buf : list Byte.byte)
    (rerr derr : option error) (m : gmap string string) :
  os.ReadFile (files w) (tokensPath a) = (buf, rerr) →
  json.Unmarshal buf ∅ = (m, derr) →
  errors.Is rerr ErrNotExist = true
  ∨ is_Some derr
  ∨ default "" (m !! types.AuthConfig.Username hubAuthConfig) = "" →
  cachedTokenError a hubAuthConfig w = Some (fmt.Errorf "empty token")
  ∧ ∃ rest, calls (GetToken a hubAuthConfig w).2
            = calls w ++ hub.CallLogin (hub a) hubAuthConfig :: rest.
Proof.
  intros Hread Hdecode Hmiss.
  assert (getLocalToken a hubAuthConfig w = ("", w)) as Hload.
  { unfold getLocalToken, mbind, M_bind, ioutil_ReadFile, mret, M_ret.
    rewrite Hread. destruct (errors.Is rerr ErrNotExist); [done|].
    rewrite Hdecode. destruct derr as [e|]; [done|].
    destruct Hmiss as [?|[[e ?]| ->]]; done. }
  assert (cachedTokenError a hubAuthConfig w = Some (fmt.Errorf "empty token")) as Herr.
  { unfold cachedTokenError. by rewrite Hload. }
  split; [done|]. apply GetToken_login_first. by rewrite Herr.
Qed.

(** The cause of an error made with [%w] is found by [errors.Is]. *)
Lemma Is_Errorf_w (prefix : string) (cause target : error) :
  errors.Is (Some cause) target = true →
  errors.Is (Some (fmt.Errorf_w prefix cause)) target = true.
Proof.
  unfold fmt.Errorf_w. cbn [errors.Is errors.Is_chain]. intros Hcause.
  case_bool_decide; [done|]. exact Hcause.
Qed.

Lemma Is_refl (e : error) : errors.Is (Some e) e = true.
Proof. destruct e; cbn [errors.Is errors.Is_chain]; by rewrite bool_decide_eq_true_2. Qed.

(** X7. An error of [GetToken] comes with the empty string for the token,
    after a validation of the cached token that failed, and is made of the
    error of a collaborator alone, in one of three ways.  The login returned
    the error: it is wrapped under the messages of the login and of the
    negotiation, and the world is the one after the login.  The exchange
    returned the error, for the session of the login: it is wrapped under
    the messages of the exchange and of the negotiation, and the world is
    the one after the two calls.  Or the save of the token of the exchange
    returned the error: it is wrapped under the message of the save, in the
    world that the save left.  [errors.Is] finds the error that the
    collaborator returned; the error of the validation is in none of them. *)
Theorem GetToken_error a hubAuthConfig w (token : string) (err : error) (w' : World) :
  GetToken a hubAuthConfig w = ((token, Some err), w') →
  token = ""
  ∧ is_Some (cachedTokenError a hubAuthConfig w)
  ∧ ((∃ hubToken cause,
        hub.Login (hub a) hubAuthConfig = (hubToken, Some cause)
        ∧ err = fmt.Errorf_w "could not negotiate scan id token: "
                  (fmt.Errorf_w "could not login: " cause)
        ∧ w' = called w [hub.CallLogin (hub a) hubAuthConfig]
        ∧ errors.Is (Some err) cause = true)
     ∨ (∃ hubToken fresh cause,
          hub.Login (hub a) hubAuthConfig = (hubToken, None)
          ∧ hub.GetScanID (hub a) hubToken = (fresh, Some cause)
          ∧ err = fmt.Errorf_w "could not negotiate scan id token: "
                    (fmt.Errorf_w "could not get scan id: " cause)
          ∧ w' = called w [hub.CallLogin (hub a) hubAuthConfig;
                           hub.CallGetScanID (hub a) hubToken]
          ∧ errors.Is (Some err) cause = true)
     ∨ (∃ hubToken fresh cause,
          hub.Login (hub a) hubAuthConfig = (hubToken, None)
          ∧ hub.GetScanID (hub a) hubToken = (fresh, None)
          ∧ updateLocalToken a hubAuthConfig fresh
              (called w [hub.CallLogin (hub a) hubAuthConfig;
                         hub.CallGetScanID (hub a) hubToken]) = (Some cause, w')
          ∧ err = fmt.Errorf_w "could not update local token: " cause
          ∧ errors.Is (Some err) cause = true)).
Proof.
  rewrite GetToken_unfold, negotiateScanIDToken_unfold. unfold cachedTokenError. simpl.
  destruct (checkTokenValidity a _ w).1 as [verr|]; [|done].
  destruct (hub.Login _ _) as [hubToken [e|]] eqn:Hlogin.
  { intros [= <- <- <-]. split; [done|]. split; [done|]. left.
    exists hubToken, e. repeat split; try done.
    do 2 apply Is_Errorf_w. apply Is_refl. }
  destruct (hub.GetScanID _ _) as [fresh [e|]] eqn:Hscan.
  { intros [= <- <- <-]. split; [done|]. split; [done|]. right. left.
    exists hubToken, fresh, e. repeat split; try done.
    do 2 apply Is_Errorf_w. apply Is_refl. }
  destruct (updateLocalToken _ _ _ _) as [[e|] w2] eqn:Hsave; [|done].
  intros [= <- <- <-]. split; [done|]. split; [done|]. right. right.
  exists hubToken, fresh, e. repeat split; try done.
  apply Is_Errorf_w. apply Is_refl.
Qed.

(** X8. A token that [GetToken] returns with a nil error is either the
    cached token, which passed the validation, the world being as it was, or
    the token that the exchange gave for the session of the login, which
    was saved under the username.  The fresh token is returned and saved as
    the Hub gave it: it is not validated. *)
Theorem GetToken_success a hubAuthConfig w (token : string) (w' : World) :
  GetToken a hubAuthConfig w = ((token, None), w') →
  (w' = w
   ∧ token = (getLocalToken a hubAuthConfig w).1
   ∧ checkTokenValidity a token w = (None, w))
  ∨ (is_Some (cachedTokenError a hubAuthConfig w)
     ∧ ∃ hubToken,
         hub.Login (hub a) hubAuthConfig = (hubToken, None)
         ∧ hub.GetScanID (hub a) hubToken = (token, None)
         ∧ updateLocalToken a hubAuthConfig token
             (called w [hub.CallLogin (hub a) hubAuthConfig;
                        hub.CallGetScanID (hub a) hubToken]) = (None, w')).
Proof.
  rewrite GetToken_unfold, negotiateScanIDToken_unfold. unfold cachedTokenError. simpl.
  pose proof (checkTokenValidity_world a (getLocalToken a hubAuthConfig w).1 w) as Hw.
  destruct (checkTokenValidity a _ w) as [[verr|] w0] eqn:Hcheck; simpl in *.
  2: { intros [= <- <-]. left. by subst w0. }
  intros Hget. right. split; [done|].
  destruct (hub.Login _ _) as [hubToken [e|]]; [done|].
  destruct (hub.GetScanID _ _) as [fresh [e|]] eqn:Hscan; [done|].
  destruct (updateLocalToken _ _ _ _) as [[e|] w2] eqn:Hsave; [done|].
  injection Hget as <- <-. by exists hubToken.
Qed.

(** ** The local token store *)

(** The mapping a save starts from, when the file holds a mapping. *)
Lemma existingTokens_persisted a w (m : gmap string string) :
  persisted a w m → existingTokens a w = m.
Proof.
  intros (buf & Hread & Hdecode). unfold existingTokens.
  by rewrite Hread; simpl; rewrite Hdecode.
Qed.

(** X9. After a [GetToken] that negotiated a token and saved it, a second
    [GetToken] in the world it left returns that token from the cache and
    makes no remote call, when the token passes the validation, the file
    system gives back the bytes written and the codec the mapping encoded. *)
Theorem GetToken_then_cached a hubAuthConfig w w' (token : string) :
  is_Some (cachedTokenError a hubAuthConfig w) →
  GetToken a hubAuthConfig w = ((token, None), w') →
  readsBack w w' (tokensPath a) →
  roundTrips (<[types.AuthConfig.Username hubAuthConfig := token]> (existingTokens a w)) →
  (checkTokenValidity a token w').1 = None →
  GetToken a hubAuthConfig w' = ((token, None), w').
Proof.
  intros Hmiss Hget Hback Hround Hvalid.
  rewrite (GetToken_miss _ _ _ Hmiss), negotiateScanIDToken_unfold in Hget.
  destruct (hub.Login _ _) as [hubToken [e|]]; [done|].
  destruct (hub.GetScanID _ _) as [fresh [e|]]; [done|].
  destruct (updateLocalToken _ _ _ _) as [[e|] w2] eqn:Hsave; [done|].
  injection Hget as -> ->.
  pose proof (updateLocalToken_persisted _ _ _ _ _ Hsave Hback Hround) as Hheld.
  pose proof (getLocalToken_persisted a hubAuthConfig w' _ Hheld) as Hload.
  rewrite lookup_insert_eq in Hload. simpl in Hload.
  rewrite GetToken_hit; unfold cachedTokenError; by rewrite Hload.
Qed.

(** X10. A save that reports no error has written the file with the mode
    that [os.Stat] gave for it when the file was there, and with the mode
    0644 when [os.Stat] reported that it was not. *)
Theorem updateLocalToken_mode a hubAuthConfig token w w'
    (stats : os.FileInfo) (serr : option error) :
  updateLocalToken a hubAuthConfig token w = (None, w') →
  os.Stat (files w) (tokensPath a) = (stats, serr) →
  ∃ out, os.WriteFile (files w) (tokensPath a) out
           (if serr is None then os.FileInfo.Mode stats else FileMode_0644)
         = (None, files w').
Proof.
  rewrite updateLocalToken_unfold. intros Hsave Hstat. rewrite Hstat in Hsave.
  destruct (bool_decide (serr ≠ None) && negb (errors.Is serr ErrNotExist)) eqn:Hs.
  { injection Hsave as -> _. by eapply early_return_not. }
  destruct (os.ReadFile _ _) as [buf rerr].
  destruct (bool_decide (rerr ≠ None) && negb (errors.Is rerr ErrNotExist)) eqn:Hr.
  { injection Hsave as -> _. by eapply early_return_not. }
  destruct (json.Marshal _) as [out merr].
  destruct merr as [e|]; [by rewrite bool_decide_eq_true_2 in Hsave|].
  rewrite bool_decide_eq_false_2 in Hsave by (by intros []).
  destruct (os.WriteFile _ _ _ _) as [werr fs] eqn:Hwrite.
  injection Hsave as -> <-. by exists out.
Qed.

(** X11. A save that returns an error has left the world as it was, unless
    the error is that of the write: the failures of [os.Stat], of the read
    and of the encoding come before anything is written. *)
Theorem updateLocalToken_failure a hubAuthConfig token w w' (e : error) :
  updateLocalToken a hubAuthConfig token w = (Some e, w') →
  w' = w
  ∨ ∃ out perm, os.WriteFile (files w) (tokensPath a) out perm = (Some e, files w')
                ∧ w' = withFiles w (files w').
Proof.
  rewrite updateLocalToken_unfold.
  destruct (os.Stat _ _) as [stats serr].
  destruct (bool_decide (serr ≠ None) && negb (errors.Is serr ErrNotExist)).
  { intros [= _ <-]. by left. }
  destruct (os.ReadFile _ _) as [buf rerr].
  destruct (bool_decide (rerr ≠ None) && negb (errors.Is rerr ErrNotExist)).
  { intros [= _ <-]. by left. }
  destruct (json.Marshal _) as [out merr].
  destruct (bool_decide (merr ≠ None)).
  { intros [= _ <-]. by left. }
  destruct (os.WriteFile _ _ _ _) as [werr fs] eqn:Hwrite.
  intros [= -> <-]. right. by exists out, (if serr is None then os.FileInfo.Mode stats else FileMode_0644).
Qed.

(** X12. The save drops the error of the decoding and keeps what the
    decoder has stored.  When the file reads and the decoder leaves the
    mapping [m], with an error or without, a save that returns a nil error
    has written the encoding of [m] with the new entry; the file then holds
    [m] with the new entry, when the file system gives back the bytes
    written and the codec the mapping encoded. *)
Theorem updateLocalToken_keeps_decoded a hubAuthConfig token w w'
    (buf : list Byte.byte) (derr : option error) (m : gmap string string) :
  os.ReadFile (files w) (tokensPath a) = (buf, None) →
  json.Unmarshal buf ∅ = (m, derr) →
  updateLocalToken a hubAuthConfig token w = (None, w') →
  ∃ out perm,
    json.Marshal (<[types.AuthConfig.Username hubAuthConfig := token]> m) = (out, None)
    ∧ os.WriteFile (files w) (tokensPath a) out perm = (None, files w')
    ∧ (readsBack w w' (tokensPath a) →
       roundTrips (<[types.AuthConfig.Username hubAuthConfig := token]> m) →
       persisted a w' (<[types.AuthConfig.Username hubAuthConfig := token]> m)).
Proof.
  intros Hread Hdecode Hsave.
  assert (existingTokens a w = m) as Hexisting.
  { unfold existingTokens. by rewrite Hread; simpl; rewrite Hdecode. }
  destruct (updateLocalToken_ok _ _ _ _ _ Hsave) as (out & perm & Hencode & Hwrite & _).
  rewrite Hexisting in Hencode.
  exists out, perm. split; [done|]. split; [done|].
  intros Hback Hround. rewrite <- Hexisting in Hround |- *.
  by apply updateLocalToken_persisted.
Qed.

(** X13. Two saves, for two usernames, one after the other: both tokens are
    then loaded for their usernames, when the file system gives back the
    bytes of each write and the codec the mapping of each encoding. *)
Theorem save_two_users a (first second : types.AuthConfig) (token1 token2 : string)
    (w w1 w2 : World) :
  types.AuthConfig.Username first ≠ types.AuthConfig.Username second →
  updateLocalToken a first token1 w = (None, w1) →
  readsBack w w1 (tokensPath a) →
  roundTrips (<[types.AuthConfig.Username first := token1]> (existingTokens a w)) →
  updateLocalToken a second token2 w1 = (None, w2) →
  readsBack w1 w2 (tokensPath a) →
  roundTrips (<[types.AuthConfig.Username second := token2]>
                (<[types.AuthConfig.Username first := token1]> (existingTokens a w))) →
  getLocalToken a first w2 = (token1, w2)
  ∧ getLocalToken a second w2 = (token2, w2).
Proof.
  intros Hne Hsave1 Hback1 Hround1 Hsave2 Hback2 Hround2.
  pose proof (updateLocalToken_persisted _ _ _ _ _ Hsave1 Hback1 Hround1) as Hheld1.
  rewrite <- (existingTokens_persisted _ _ _ Hheld1) in Hround2.
  pose proof (updateLocalToken_persisted _ _ _ _ _ Hsave2 Hback2 Hround2) as Hheld2.
  rewrite (existingTokens_persisted _ _ _ Hheld1) in Hheld2.
  rewrite !(getLocalToken_persisted a _ w2 _ Hheld2).
  rewrite lookup_insert_eq, lookup_insert_ne, lookup_insert_eq by done.
  done.
Qed.

(** The negotiation leaves the file system and the clock as they were. *)
Lemma negotiateScanIDToken_files a hubAuthConfig w :
  files (negotiateScanIDToken a hubAuthConfig w).2 = files w
  ∧ clock (negotiateScanIDToken a hubAuthConfig w).2 = clock w.
Proof.
  rewrite negotiateScanIDToken_unfold.
  destruct (hub.Login _ _) as [hubToken [e|]]; [done|].
  by destruct (hub.GetScanID _ _) as [fresh [e|]].
Qed.

(** X14. What each step touches.  Loading and validating leave the world
    as it was; the negotiation changes the log of remote calls only, by one
    or two calls; the save makes no remote call; and no step of [GetToken]
    changes the reading of the clock. *)
Theorem effects_footprint a hubAuthConfig token w :
  (getLocalToken a hubAuthConfig w).2 = w
  ∧ (checkTokenValidity a token w).2 = w
  ∧ files (negotiateScanIDToken a hubAuthConfig w).2 = files w
  ∧ (∃ hubToken,
       calls (negotiateScanIDToken a hubAuthConfig w).2
       = calls w ++ [hub.CallLogin (hub a) hubAuthConfig]
       ∨ calls (negotiateScanIDToken a hubAuthConfig w).2
         = calls w ++ [hub.CallLogin (hub a) hubAuthConfig;
                       hub.CallGetScanID (hub a) hubToken])
  ∧ calls (updateLocalToken a hubAuthConfig token w).2 = calls w
  ∧ clock (updateLocalToken a hubAuthConfig token w).2 = clock w
  ∧ clock (GetToken a hubAuthConfig w).2 = clock w.
Proof.
  assert (∀ t w0, clock (updateLocalToken a hubAuthConfig t w0).2 = clock w0) as Hclock.
  { intros t w0. rewrite updateLocalToken_unfold.
    destruct (os.Stat _ _) as [stats serr].
    destruct (bool_decide (serr ≠ None) && negb (errors.Is serr ErrNotExist)); [done|].
    destruct (os.ReadFile _ _) as [buf rerr].
    destruct (bool_decide (rerr ≠ None) && negb (errors.Is rerr ErrNotExist)); [done|].
    destruct (json.Marshal _) as [out merr].
    destruct (bool_decide (merr ≠ None)); [done|].
    by destruct (os.WriteFile _ _ _ _). }
  split; [apply getLocalToken_world|].
  split; [apply checkTokenValidity_world|].
  split; [apply negotiateScanIDToken_files|].
  split.
  { rewrite negotiateScanIDToken_unfold.
    destruct (hub.Login _ _) as [hubToken [e|]]; [exists ""; by left|].
    exists hubToken. right. by destruct (hub.GetScanID _ _) as [fresh [e|]]. }
  split; [apply updateLocalToken_calls|].
  split; [apply Hclock|].
  rewrite GetToken_unfold. simpl.
  destruct (checkTokenValidity a _ w).1 as [verr|]; [|done].
  pose proof (negotiateScanIDToken_files a hubAuthConfig w) as [_ Hn].
  destruct (negotiateScanIDToken a hubAuthConfig w) as [[fresh [e|]] w1]; simpl in *; [done|].
  pose proof (Hclock fresh w1) as Hu.
  destruct (updateLocalToken a hubAuthConfig fresh w1) as [[e'|] w2]; simpl in *; congruence.
Qed.

End more_properties.

(** * Properties of config/config.go *)

Section config_properties.
Context `{Sys : os.Sys} `{Dirs : !osdir.Dirs} `{Platform : host.Platform}
        `{CCodec : ConfigCodec}.

Implicit Types (w : World) (conf : Config).

(** [errors.Wrap] keeps nil and nothing else. *)
Lemma Wrap_nil (err : option error) (message : string) :
  pkgerrors.Wrap err message = None ↔ err = None.
Proof. by destruct err. Qed.

(** [errors.Is] finds the cause under [errors.Wrap]. *)
Lemma Is_Wrap (cause : error) (message : string) (err : error) :
  pkgerrors.Wrap (Some cause) message = Some err →
  errors.Is (Some err) cause = true.
Proof.
  intros [= <-]. cbn [errors.Is errors.Is_chain].
  case_bool_decide; [done|]. case_bool_decide; [done|].
  destruct cause; cbn [errors.Is_chain]; by rewrite bool_decide_eq_true_2.
Qed.

(** [SaveConfigFile], call by call. *)
Lemma SaveConfigFile_unfold conf w :
  SaveConfigFile conf w =
  let '(out, merr) := MarshalConfig conf in
  if bool_decide (merr ≠ None) then (merr, w)
  else
    let '(derr, fs1) :=
      osdir.MkdirAll (files w) (host.Join [host.Dir; "scan"]) FileMode_0744 in
    if bool_decide (derr ≠ None)
    then (pkgerrors.Wrap derr "failed to create docker scan configuration directory",
          withFiles w fs1)
    else
      let '(werr, fs2) := os.WriteFile fs1 configPath out FileMode_0644 in
      (pkgerrors.Wrap werr "failed to write docker scan configuration file",
       withFiles w fs2).
Proof.
  unfold SaveConfigFile, mbind, M_bind, mret, M_ret, os_MkdirAll, ioutil_WriteFile,
    withFiles, configPath.
  destruct (MarshalConfig conf) as [out merr].
  destruct (bool_decide (merr ≠ None)); [done|].
  destruct (osdir.MkdirAll _ _ _) as [derr fs1]. simpl.
  destruct (bool_decide (derr ≠ None)); [done|].
  by destruct (os.WriteFile _ _ _ _) as [werr fs2].
Qed.

(** A save of the configuration that reported no error has encoded it and
    written the encoding to the configuration file. *)
Lemma SaveConfigFile_written conf w w' :
  SaveConfigFile conf w = (None, w') →
  ∃ out fs1, MarshalConfig conf = (out, None)
             ∧ os.WriteFile fs1 configPath out FileMode_0644 = (None, files w').
Proof.
  rewrite SaveConfigFile_unfold.
  destruct (MarshalConfig conf) as [out [e|]] eqn:Hencode;
    [by rewrite bool_decide_eq_true_2|].
  rewrite bool_decide_eq_false_2 by (by intros []).
  destruct (osdir.MkdirAll _ _ _) as [[e|] fs1] eqn:Hmkdir;
    [by rewrite bool_decide_eq_true_2|].
  rewrite bool_decide_eq_false_2 by (by intros []).
  destruct (os.WriteFile _ _ _ _) as [[e|] fs2] eqn:Hwrite; [done|].
  intros [= <-]. by exists out, fs1.
Qed.

(** X15. [SaveConfigFile] returns nil only when its three steps reported no
    error: the encoding, the creation of the directory [scan] with the mode
    0744, and the write of the file with the mode 0644, in the file system
    that the creation of the directory left. *)
Theorem SaveConfigFile_ok conf w w' :
  SaveConfigFile conf w = (None, w') →
  ∃ out fs1,
    MarshalConfig conf = (out, None)
    ∧ osdir.MkdirAll (files w) (host.Join [host.Dir; "scan"]) FileMode_0744 = (None, fs1)
    ∧ os.WriteFile fs1 configPath out FileMode_0644 = (None, files w')
    ∧ w' = withFiles w (files w').
Proof.
  rewrite SaveConfigFile_unfold.
  destruct (MarshalConfig conf) as [out [e|]] eqn:Hencode;
    [by rewrite bool_decide_eq_true_2|].
  rewrite bool_decide_eq_false_2 by (by intros []).
  destruct (osdir.MkdirAll _ _ _) as [[e|] fs1] eqn:Hmkdir;
    [by rewrite bool_decide_eq_true_2|].
  rewrite bool_decide_eq_false_2 by (by intros []).
  destruct (os.WriteFile _ _ _ _) as [[e|] fs2] eqn:Hwrite; [done|].
  intros [= <-]. by exists out, fs1.
Qed.

(** X16. An error of [SaveConfigFile] is the error of the encoding, as it
    is and with the world as it was; or the error of the creation of the
    directory, wrapped, and then nothing was written; or the error of the
    write, wrapped.  [errors.Is] finds the error of the call in each case. *)
Theorem SaveConfigFile_error conf w w' (err : error) :
  SaveConfigFile conf w = (Some err, w') →
  (w' = w ∧ (MarshalConfig conf).2 = Some err)
  ∨ (∃ cause fs1,
       osdir.MkdirAll (files w) (host.Join [host.Dir; "scan"]) FileMode_0744
       = (Some cause, fs1)
       ∧ Some err = pkgerrors.Wrap (Some cause)
                      "failed to create docker scan configuration directory"
       ∧ errors.Is (Some err) cause = true
       ∧ w' = withFiles w fs1)
  ∨ (∃ cause out fs1,
       osdir.MkdirAll (files w) (host.Join [host.Dir; "scan"]) FileMode_0744
       = (None, fs1)
       ∧ os.WriteFile fs1 configPath out FileMode_0644 = (Some cause, files w')
       ∧ Some err = pkgerrors.Wrap (Some cause)
                      "failed to write docker scan configuration file"
       ∧ errors.Is (Some err) cause = true).
Proof.
  rewrite SaveConfigFile_unfold.
  destruct (MarshalConfig conf) as [out [e|]] eqn:Hencode.
  { rewrite bool_decide_eq_true_2 by done. intros [= <- <-]. by left. }
  rewrite bool_decide_eq_false_2 by (by intros []).
  destruct (osdir.MkdirAll _ _ _) as [[e|] fs1] eqn:Hmkdir.
  { rewrite bool_decide_eq_true_2 by done. intros [= <- <-]. right. left.
    exists e, fs1. repeat split; try done. by eapply Is_Wrap. }
  rewrite bool_decide_eq_false_2 by (by intros []).
  destruct (os.WriteFile _ _ _ _) as [[e|] fs2] eqn:Hwrite; [|done].
  intros [= <- <-]. right. right.
  exists e, out, fs1. repeat split; try done. by eapply Is_Wrap.
Qed.

(** Where there is no initial file to create, the first block of
    [ReadConfigFile] does nothing. *)
Lemma ReadConfigFile_init_nothing w :
  nothingToCreate w → ReadConfigFile_init configPath w = (None, w).
Proof.
  unfold nothingToCreate, ReadConfigFile_init, mbind, M_bind, mret, M_ret, os_Stat.
  intros [Hos|[Hos|Hstat]].
  - rewrite Hos. by rewrite (bool_decide_eq_false_2 ("windows" ≠ "windows")) by (by intros []).
  - rewrite Hos. rewrite (bool_decide_eq_false_2 ("darwin" ≠ "darwin")) by (by intros []).
    by rewrite andb_false_r.
  - destruct (_ && _); [|done].
    destruct (os.Stat (files w) configPath) as [info serr]. simpl in *.
    by rewrite Hstat, andb_false_r.
Qed.

(** [ReadConfigFile], step by step. *)
Lemma ReadConfigFile_unfold w :
  ReadConfigFile w =
  let '(ierr, w1) := ReadConfigFile_init configPath w in
  if bool_decide (ierr ≠ None)
  then ((Config_zero,
         pkgerrors.Wrapf ierr
           ("failed to create initial scan configuration file "
            +:+ host.Quote configPath)), w1)
  else
    let '(buf, rerr) := os.ReadFile (files w1) configPath in
    if bool_decide (rerr ≠ None)
    then ((Config_zero,
           pkgerrors.Wrap rerr
             "failed to read docker scan configuration file. Please restart Docker Desktop"),
          withFiles w1 (osdir.Remove (files w1) configPath).2)
    else
      let '(conf, derr) := UnmarshalConfig buf Config_zero in
      if bool_decide (derr ≠ None)
      then ((conf,
             pkgerrors.Wrapf derr
               ("invalid docker scan configuration file " +:+ configPath
                +:+ ". Please restart Docker Desktop")),
            withFiles w1 (osdir.Remove (files w1) configPath).2)
      else ((conf, None), w1).
Proof.
  unfold ReadConfigFile. fold configPath.
  unfold mbind at 1, M_bind at 1.
  destruct (ReadConfigFile_init configPath w) as [ierr w1].
  destruct (bool_decide (ierr ≠ None)); [done|].
  unfold mbind, M_bind, mret, M_ret, ioutil_ReadFile, os_Remove, withFiles.
  destruct (os.ReadFile _ _) as [buf rerr].
  destruct (bool_decide (rerr ≠ None)).
  { by destruct (osdir.Remove _ _) as [xerr fs]. }
  destruct (UnmarshalConfig buf Config_zero) as [conf derr].
  destruct (bool_decide (derr ≠ None)); [|done].
  by destruct (osdir.Remove _ _) as [xerr fs].
Qed.

(** The first block of [ReadConfigFile] either does nothing, or is the save
    of the zero configuration, on a host that is neither Windows nor macOS
    and when [os.Stat] reports that the file does not exist. *)
Lemma ReadConfigFile_init_cases w :
  ReadConfigFile_init configPath w = (None, w)
  ∨ (host.GOOS ≠ "windows" ∧ host.GOOS ≠ "darwin"
     ∧ osdir.IsNotExist (os.Stat (files w) configPath).2 = true
     ∧ ReadConfigFile_init configPath w = SaveConfigFile Config_zero w).
Proof.
  unfold ReadConfigFile_init, mbind, M_bind, mret, M_ret, os_Stat.
  case_bool_decide as Hw; [|by left]. case_bool_decide as Hd; [|by left]. simpl.
  destruct (os.Stat (files w) configPath) as [info serr]. simpl.
  destruct (osdir.IsNotExist serr) eqn:Hne; [|rewrite andb_false_r; by left].
  right. destruct serr as [e|]; [|done]. by rewrite bool_decide_eq_true_2.
Qed.

(** On a host that is neither Windows nor macOS, when [os.Stat] reports
    that the file does not exist, the first block of [ReadConfigFile] is the
    save of the zero configuration. *)
Lemma ReadConfigFile_init_missing w (info : os.FileInfo) (serr : option error) :
  host.GOOS ≠ "windows" →
  host.GOOS ≠ "darwin" →
  os.Stat (files w) configPath = (info, serr) →
  osdir.IsNotExist serr = true →
  ReadConfigFile_init configPath w = SaveConfigFile Config_zero w.
Proof.
  intros Hw Hd Hstat Hmissing.
  unfold ReadConfigFile_init, mbind, M_bind, mret, M_ret, os_Stat.
  rewrite !bool_decide_eq_true_2 by done. simpl. rewrite Hstat, Hmissing.
  destruct serr as [e|]; [|done]. by rewrite bool_decide_eq_true_2.
Qed.

(** X17. A configuration that was saved is the configuration that is read:
    after a [SaveConfigFile] that reported no error, [ReadConfigFile]
    returns the configuration saved and a nil error, and leaves the world as
    it is, when there is no initial file to create, the file system gives
    back the bytes written and the codec the configuration encoded. *)
Theorem save_then_read_config conf w w1 :
  SaveConfigFile conf w = (None, w1) →
  nothingToCreate w1 →
  configReadsBack (files w1) →
  configRoundTrips conf →
  ReadConfigFile w1 = ((conf, None), w1).
Proof.
  intros Hsave Hinit Hback Hround.
  destruct (SaveConfigFile_written _ _ _ Hsave) as (out & fs1 & Hencode & Hwrite).
  rewrite ReadConfigFile_unfold, (ReadConfigFile_init_nothing _ Hinit). simpl.
  rewrite (Hback _ _ _ Hwrite). simpl. by rewrite (Hround _ Hencode).
Qed.

(** X18. On a host that is neither Windows nor macOS, when [os.Stat]
    reports that the configuration file does not exist, [ReadConfigFile]
    saves the zero configuration first; when that save reports no error, the
    file system gives back the bytes written and the codec the configuration
    encoded, it returns the zero configuration and a nil error, in the world
    that the save left. *)
Theorem ReadConfigFile_creates_default w w1 (info : os.FileInfo) (serr : option error) :
  host.GOOS ≠ "windows" →
  host.GOOS ≠ "darwin" →
  os.Stat (files w) configPath = (info, serr) →
  osdir.IsNotExist serr = true →
  SaveConfigFile Config_zero w = (None, w1) →
  configReadsBack (files w1) →
  configRoundTrips Config_zero →
  ReadConfigFile w = ((Config_zero, None), w1).
Proof.
  intros Hw Hd Hstat Hmissing Hsave Hback Hround.
  destruct (SaveConfigFile_written _ _ _ Hsave) as (out & fs1 & Hencode & Hwrite).
  rewrite ReadConfigFile_unfold.
  rewrite (ReadConfigFile_init_missing w info serr Hw Hd Hstat Hmissing), Hsave. simpl.
  rewrite (Hback _ _ _ Hwrite). simpl. by rewrite (Hround _ Hencode).
Qed.

(** X19. On such a host and with such a report of [os.Stat], when the save
    of the zero configuration fails, [ReadConfigFile] returns the zero
    configuration and the error of the save under the message of the
    creation of the initial file, in the world that the save left: the file
    is neither read nor removed. *)
Theorem ReadConfigFile_creation_failure w w1 (info : os.FileInfo) (serr : option error)
    (e : error) :
  host.GOOS ≠ "windows" →
  host.GOOS ≠ "darwin" →
  os.Stat (files w) configPath = (info, serr) →
  osdir.IsNotExist serr = true →
  SaveConfigFile Config_zero w = (Some e, w1) →
  ReadConfigFile w
  = ((Config_zero,
      pkgerrors.Wrapf (Some e)
        ("failed to create initial scan configuration file " +:+ host.Quote configPath)),
     w1).
Proof.
  intros Hw Hd Hstat Hmissing Hsave.
  rewrite ReadConfigFile_unfold.
  rewrite (ReadConfigFile_init_missing w info serr Hw Hd Hstat Hmissing), Hsave.
  by rewrite bool_decide_eq_true_2.
Qed.

(** X20. When there is no initial file to create and the read of the
    configuration file fails, on Windows and macOS also when the file is
    missing, [ReadConfigFile] calls [os.Remove] on the file and returns the
    zero configuration and the error of the read, wrapped. *)
Theorem ReadConfigFile_read_failure w (buf : list Byte.byte) (e : error) :
  nothingToCreate w →
  os.ReadFile (files w) configPath = (buf, Some e) →
  ReadConfigFile w
  = ((Config_zero,
      pkgerrors.Wrap (Some e)
        "failed to read docker scan configuration file. Please restart Docker Desktop"),
     withFiles w (osdir.Remove (files w) configPath).2).
Proof.
  intros Hinit Hread.
  rewrite ReadConfigFile_unfold, (ReadConfigFile_init_nothing _ Hinit). simpl.
  rewrite Hread. by rewrite bool_decide_eq_true_2.
Qed.

(** X21. When there is no initial file to create, the file reads and its
    content does not decode, [ReadConfigFile] calls [os.Remove] on the file
    and returns the error of the decoding, wrapped, together with the
    configuration as the decoder left it. *)
Theorem ReadConfigFile_invalid_content w (buf : list Byte.byte) conf (e : error) :
  nothingToCreate w →
  os.ReadFile (files w) configPath = (buf, None) →
  UnmarshalConfig buf Config_zero = (conf, Some e) →
  ReadConfigFile w
  = ((conf,
      pkgerrors.Wrapf (Some e)
        ("invalid docker scan configuration file " +:+ configPath
         +:+ ". Please restart Docker Desktop")),
     withFiles w (osdir.Remove (files w) configPath).2).
Proof.
  intros Hinit Hread Hdecode.
  rewrite ReadConfigFile_unfold, (ReadConfigFile_init_nothing _ Hinit). simpl.
  rewrite Hread. simpl. rewrite Hdecode. by rewrite bool_decide_eq_true_2.
Qed.

(** X22. A configuration that [ReadConfigFile] returns with a nil error is
    what the content of the file decodes to, without error, in the world it
    leaves; that world is the world as it was, or, on a host that is neither
    Windows nor macOS, the world after a save of the zero configuration that
    reported no error.  [os.Remove] was not called. *)
Theorem ReadConfigFile_sound w w' conf :
  ReadConfigFile w = ((conf, None), w') →
  (∃ buf, os.ReadFile (files w') configPath = (buf, None)
          ∧ UnmarshalConfig buf Config_zero = (conf, None))
  ∧ (w' = w
     ∨ (host.GOOS ≠ "windows" ∧ host.GOOS ≠ "darwin"
        ∧ SaveConfigFile Config_zero w = (None, w'))).
Proof.
  rewrite ReadConfigFile_unfold. intros Hread.
  assert (∃ w1, ReadConfigFile_init configPath w = (None, w1)
                ∧ (w1 = w ∨ (host.GOOS ≠ "windows" ∧ host.GOOS ≠ "darwin"
                             ∧ SaveConfigFile Config_zero w = (None, w1))))
    as (w1 & Hinit & Hw1).
  { destruct (ReadConfigFile_init configPath w) as [[e|] w1] eqn:Hinit.
    { by rewrite bool_decide_eq_true_2 in Hread. }
    exists w1. split; [done|].
    destruct (ReadConfigFile_init_cases w) as [Hnone|(Hw & Hd & _ & Hsave)].
    - left. congruence.
    - right. split; [done|]. split; [done|]. congruence. }
  rewrite Hinit in Hread. simpl in Hread.
  destruct (os.ReadFile (files w1) configPath) as [buf [e|]] eqn:Hfile.
  { by rewrite bool_decide_eq_true_2 in Hread. }
  simpl in Hread.
  destruct (UnmarshalConfig buf Config_zero) as [conf' [e|]] eqn:Hdecode.
  { by rewrite bool_decide_eq_true_2 in Hread. }
  simpl in Hread. injection Hread as <- <-.
  split; [by exists buf | done].
Qed.

End config_properties.

(** * The properties on the sample inputs *)

#[local] Existing Instances fixture.sys fixture.codec fixture.lib fixture.remote.

(** The in-memory file system gives back what was written to a file that
    its owner can read: by its mode if it was there, by the mode asked for
    if the write made it. *)
Lemma fixture_reads_back (fs fs' : gmap string fixture.MemFile) (name : string)
    (content : list Byte.byte) (perm : Z) :
  fixture.mem_WriteFile fs name content perm = (None, fs') →
  fixture.ownerRead (if fs !! name is Some f then fixture.mode f else perm) = true →
  fixture.mem_ReadFile fs' name = (content, None).
Proof.
  unfold fixture.mem_WriteFile, fixture.mem_ReadFile. intros Hwrite Hmode.
  destruct (fs !! name) as [f|] eqn:Hf.
  - destruct (fixture.ownerWrite (fixture.mode f)); [|done].
    injection Hwrite as <-. rewrite lookup_insert_eq. simpl. by rewrite Hmode.
  - injection Hwrite as <-. rewrite lookup_insert_eq. simpl. by rewrite Hmode.
Qed.

(** C1 as stated fails: the token [early] parses, names the key [k1] of the
    key set, verifies under it, and expires at 7200 s, later than the
    deadline of 1060 s; its not-before date of 3600 s is later than the
    deadline too, and the validation returns an error. *)
Lemma checkTokenValidity_rejects_not_yet_valid :
  parsesAs "early" (fixture.signed "k1" (fixture.claims (Some 7200) (Some 3600)))
  ∧ keyIdentifier (fixture.signed "k1" (fixture.claims (Some 7200) (Some 3600))) = Some "k1"
  ∧ keyFor (jwks fixture.authenticator) "k1" = Some fixture.key1
  ∧ verifiesUnder (fixture.signed "k1" (fixture.claims (Some 7200) (Some 3600)))
      fixture.key1 (fixture.claims (Some 7200) (Some 3600))
  ∧ jwt.Claims.Expiry (fixture.claims (Some 7200) (Some 3600)) = Some 7200
  ∧ deadline (fixture.world fixture.fs_none) < jwt.NumericDate_Time 7200
  ∧ checkTokenValidity fixture.authenticator "early" (fixture.world fixture.fs_none)
    = (Some (fmt.Errorf_s "token has expired: " jwt.ErrNotValidYet),
       fixture.world fixture.fs_none).
Proof. repeat split; done. Qed.

(** The token [fresh], which has no not-before date, is accepted. *)
Lemma checkTokenValidity_accepts_fresh :
  checkTokenValidity fixture.authenticator "fresh" (fixture.world fixture.fs_none)
  = (None, fixture.world fixture.fs_none).
Proof.
  apply (checkTokenValidity_accepts fixture.authenticator (fixture.world fixture.fs_none)
           "fresh" (fixture.signed "k1" (fixture.claims (Some 7200) None))
           "k1" fixture.key1 (fixture.claims (Some 7200) None) 7200).
  - split; [done | reflexivity].
  - reflexivity.
  - reflexivity.
  - reflexivity.
  - reflexivity.
  - vm_compute. reflexivity.
  - simpl. intros nbf Hnbf. discriminate Hnbf.
  - simpl. intros iat Hiat. discriminate Hiat.
Defined.

(** C2 as stated fails: the token [edge] has a valid signature under the
    key [k1] of the key set and expires at 1060 s, which is the deadline
    exactly, and the validation returns no error. *)
Lemma checkTokenValidity_accepts_at_deadline :
  parsesAs "edge" (fixture.signed "k1" (fixture.claims (Some 1060) None))
  ∧ keyIdentifier (fixture.signed "k1" (fixture.claims (Some 1060) None)) = Some "k1"
  ∧ keyFor (jwks fixture.authenticator) "k1" = Some fixture.key1
  ∧ verifiesUnder (fixture.signed "k1" (fixture.claims (Some 1060) None))
      fixture.key1 (fixture.claims (Some 1060) None)
  ∧ jwt.Claims.Expiry (fixture.claims (Some 1060) None) = Some 1060
  ∧ jwt.NumericDate_Time 1060 = deadline (fixture.world fixture.fs_none)
  ∧ checkTokenValidity fixture.authenticator "edge" (fixture.world fixture.fs_none)
    = (None, fixture.world fixture.fs_none).
Proof. repeat split; done. Qed.

(** The token [stale], which expires at 1059 s, is expired. *)
Lemma checkTokenValidity_expired_stale :
  ∃ err, checkTokenValidity fixture.authenticator "stale" (fixture.world fixture.fs_none)
         = (Some err, fixture.world fixture.fs_none)
         ∧ Expired err.
Proof.
  apply (checkTokenValidity_expired fixture.authenticator (fixture.world fixture.fs_none)
           "stale" (fixture.signed "k1" (fixture.claims (Some 1059) None))
           "k1" fixture.key1 (fixture.claims (Some 1059) None) 1059).
  - split; [done | reflexivity].
  - reflexivity.
  - reflexivity.
  - reflexivity.
  - reflexivity.
  - vm_compute. reflexivity.
  - vm_compute. reflexivity.
Defined.

(** The token [stranger] names the key [k9], which the key set has not. *)
Lemma checkTokenValidity_key_not_found_stranger :
  ∃ err, checkTokenValidity fixture.authenticator "stranger" (fixture.world fixture.fs_none)
         = (Some err, fixture.world fixture.fs_none)
         ∧ KeyNotFound err.
Proof.
  apply (checkTokenValidity_key_not_found fixture.authenticator
           (fixture.world fixture.fs_none) "stranger"
           [jose.Header.mk "k9" "RS256"]
           (jwt.JSONWebToken.Claims (fixture.signed "k9" (fixture.claims (Some 7200) None)))).
  - done.
  - reflexivity.
  - right. exists [], (jose.Header.mk "k9" "RS256"), [].
    split; [reflexivity|]. split; [constructor|]. split; [done|].
    simpl. repeat constructor; done.
Defined.

(** With no tokens file, and with a tokens file that is no JSON, the token
    loaded for bob is the empty string. *)
Lemma getLocalToken_fails_open_samples :
  getLocalToken fixture.authenticator fixture.bob (fixture.world fixture.fs_none)
  = ("", fixture.world fixture.fs_none)
  ∧ getLocalToken fixture.authenticator fixture.bob (fixture.world fixture.fs_garbage)
    = ("", fixture.world fixture.fs_garbage).
Proof.
  split.
  - apply (getLocalToken_fails_open fixture.authenticator fixture.bob
             (fixture.world fixture.fs_none) []
             (Some (PathError "open" fixture.path syscall.ENOENT))).
    + reflexivity.
    + left. reflexivity.
  - apply (getLocalToken_fails_open fixture.authenticator fixture.bob
             (fixture.world fixture.fs_garbage) (bytes_of "not json") None).
    + reflexivity.
    + right. vm_compute. eexists. reflexivity.
Defined.

(** C7 as stated fails: the tokens file of mode 0200 exists, its read fails
    with a permission error, which is not [os.ErrNotExist], and the save
    returns that error and writes nothing. *)
Lemma updateLocalToken_returns_read_error :
  os.ReadFile (files (fixture.world fixture.fs_unreadable)) (tokensPath fixture.authenticator)
  = ([], Some (PathError "open" fixture.path syscall.EACCES))
  ∧ errors.Is (Some (PathError "open" fixture.path syscall.EACCES)) ErrNotExist = false
  ∧ updateLocalToken fixture.authenticator fixture.bob "fresh"
      (fixture.world fixture.fs_unreadable)
    = (Some (PathError "open" fixture.path syscall.EACCES),
       fixture.world fixture.fs_unreadable).
Proof. repeat split; vm_compute; reflexivity. Qed.

(** The save on the unreadable file returns the error of the read; the save
    with no tokens file writes the one entry with the mode 0644. *)
Lemma updateLocalToken_read_failure_samples :
  updateLocalToken fixture.authenticator fixture.bob "fresh"
    (fixture.world fixture.fs_unreadable)
  = (Some (PathError "open" fixture.path syscall.EACCES),
     fixture.world fixture.fs_unreadable)
  ∧ updateLocalToken fixture.authenticator fixture.bob "fresh"
      (fixture.world fixture.fs_none)
    = ioutil_WriteFile fixture.path (bytes_of (fixture.text {[ "bob" := "fresh" ]}))
        FileMode_0644 (fixture.world fixture.fs_none).
Proof.
  split.
  - refine (proj1 (proj2 (updateLocalToken_read_failure fixture.authenticator
             fixture.bob "fresh" (fixture.world fixture.fs_unreadable)
             (os.FileInfo.mk (2 * 64)) None
             (Some (PathError "open" fixture.path syscall.EACCES)) [] _ _)) _ _ _ _).
    + reflexivity.
    + reflexivity.
    + left. reflexivity.
    + reflexivity.
    + reflexivity.
  - refine (proj2 (proj2 (updateLocalToken_read_failure fixture.authenticator
             fixture.bob "fresh" (fixture.world fixture.fs_none)
             (os.FileInfo.mk 0)
             (Some (PathError "stat" fixture.path syscall.ENOENT))
             (Some (PathError "open" fixture.path syscall.ENOENT)) [] _ _)) _ _ _ _ _).
    + reflexivity.
    + reflexivity.
    + reflexivity.
    + reflexivity.
    + vm_compute. reflexivity.
    + vm_compute. reflexivity.
Defined.

(** The codec gives back the sample mappings that the saves below encode. *)
Lemma fixture_round_trips_alice_bob :
  roundTrips (<[ "bob" := "fresh" ]> {[ "alice" := "stale" ]}).
Proof.
  intros content Hencode. vm_compute in Hencode. injection Hencode as <-.
  vm_compute. reflexivity.
Qed.

Lemma fixture_round_trips_bob : roundTrips {[ "bob" := "fresh" ]}.
Proof.
  intros content Hencode. vm_compute in Hencode. injection Hencode as <-.
  vm_compute. reflexivity.
Qed.

(** After the save of the token of bob in the file that holds a token of
    alice, the token loaded for bob is the one saved. *)
Lemma save_then_load_sample :
  getLocalToken fixture.authenticator fixture.bob
    (updateLocalToken fixture.authenticator fixture.bob "fresh"
       (fixture.world fixture.fs_alice)).2
  = ("fresh",
     (updateLocalToken fixture.authenticator fixture.bob "fresh"
        (fixture.world fixture.fs_alice)).2).
Proof.
  apply (save_then_load fixture.authenticator fixture.bob "fresh"
           (fixture.world fixture.fs_alice)).
  - vm_compute. reflexivity.
  - intros content perm Hwrite.
    apply (fixture_reads_back fixture.fs_alice _ _ _ perm Hwrite).
    vm_compute. reflexivity.
  - replace (existingTokens fixture.authenticator (fixture.world fixture.fs_alice))
      with ({[ "alice" := "stale" ]} : gmap string string)
      by (vm_compute; reflexivity).
    exact fixture_round_trips_alice_bob.
Defined.


(** The save of the token of bob over the file that is no JSON succeeds
    and leaves the one entry of bob: the token loaded for alice is then the
    empty string. *)
Lemma save_over_invalid_content_sample :
  updateLocalToken fixture.authenticator fixture.bob "fresh"
    (fixture.world fixture.fs_garbage)
  = (None,
     fixture.world
       {[ fixture.path :=
            fixture.mkMemFile FileMode_0644
              (bytes_of (fixture.text {[ "bob" := "fresh" ]})) ]})
  ∧ getLocalToken fixture.authenticator fixture.alice
      (fixture.world
         {[ fixture.path :=
              fixture.mkMemFile FileMode_0644
                (bytes_of (fixture.text {[ "bob" := "fresh" ]})) ]})
    = ("",
       fixture.world
         {[ fixture.path :=
              fixture.mkMemFile FileMode_0644
                (bytes_of (fixture.text {[ "bob" := "fresh" ]})) ]}).
Proof.
  destruct (save_over_invalid_content fixture.authenticator fixture.bob "fresh"
              (fixture.world fixture.fs_garbage) (os.FileInfo.mk FileMode_0644)
              (bytes_of "not json") (bytes_of (fixture.text {[ "bob" := "fresh" ]}))
              (errors.New "invalid character 'o' in literal null (expecting 'u')")
              {[ fixture.path :=
                   fixture.mkMemFile FileMode_0644
                     (bytes_of (fixture.text {[ "bob" := "fresh" ]})) ]})
    as [Hsave Hheld].
  - reflexivity.
  - reflexivity.
  - vm_compute. reflexivity.
  - reflexivity.
  - vm_compute. reflexivity.
  - split; [exact Hsave|].
    destruct Hheld as [_ Hothers].
    + intros content perm Hwrite.
      apply (fixture_reads_back fixture.fs_garbage _ _ _ perm Hwrite).
      vm_compute. reflexivity.
    + exact fixture_round_trips_bob.
    + apply (Hothers fixture.alice). done.
Defined.

(** With a good token of bob in the file, [GetToken] returns it and makes no
    remote call; with no tokens file, it logs in, exchanges the session for
    the fresh token, saves it and returns it. *)
Lemma GetToken_flow_samples :
  GetToken fixture.authenticator fixture.bob (fixture.world fixture.fs_bob)
  = (("fresh", None), fixture.world fixture.fs_bob)
  ∧ (GetToken fixture.authenticator fixture.bob (fixture.world fixture.fs_none)).1
    = ("fresh", None)
  ∧ calls (GetToken fixture.authenticator fixture.bob (fixture.world fixture.fs_none)).2
    = [hub.CallLogin (hub fixture.authenticator) fixture.bob;
       hub.CallGetScanID (hub fixture.authenticator) "session of bob"]
  ∧ getLocalToken fixture.authenticator fixture.bob
      (GetToken fixture.authenticator fixture.bob (fixture.world fixture.fs_none)).2
    = ("fresh",
       (GetToken fixture.authenticator fixture.bob (fixture.world fixture.fs_none)).2).
Proof.
  split.
  - rewrite (proj1 (GetToken_flow fixture.authenticator fixture.bob
                      (fixture.world fixture.fs_bob)))
      by (vm_compute; reflexivity).
    vm_compute. reflexivity.
  - destruct (proj1 (proj2 (GetToken_flow fixture.authenticator fixture.bob
                              (fixture.world fixture.fs_none)))
                "session of bob" "fresh"
                (updateLocalToken fixture.authenticator fixture.bob "fresh"
                   (called (fixture.world fixture.fs_none)
                      [hub.CallLogin (hub fixture.authenticator) fixture.bob;
                       hub.CallGetScanID (hub fixture.authenticator)
                         "session of bob"])).2)
      as [Hget Hcalls].
    + vm_compute. eexists. reflexivity.
    + reflexivity.
    + reflexivity.
    + vm_compute. reflexivity.
    + rewrite Hget. split; [reflexivity|]. split; [exact Hcalls|].
      vm_compute. reflexivity.
Defined.

(** With the unreadable tokens file, the fresh token is negotiated, its
    save fails, and [GetToken] returns no token and the error of the save,
    wrapped. *)
Lemma GetToken_persist_failure_sample :
  ∃ err, GetToken fixture.authenticator fixture.bob (fixture.world fixture.fs_unreadable)
         = (("", Some err),
            called (fixture.world fixture.fs_unreadable)
              [hub.CallLogin (hub fixture.authenticator) fixture.bob;
               hub.CallGetScanID (hub fixture.authenticator) "session of bob"])
         ∧ err = fmt.Errorf_w "could not update local token: "
                   (PathError "open" fixture.path syscall.EACCES)
         ∧ errors.Unwrap err = Some (PathError "open" fixture.path syscall.EACCES).
Proof.
  apply (GetToken_persist_failure fixture.authenticator fixture.bob
           (fixture.world fixture.fs_unreadable) "fresh"
           (called (fixture.world fixture.fs_unreadable)
              [hub.CallLogin (hub fixture.authenticator) fixture.bob;
               hub.CallGetScanID (hub fixture.authenticator) "session of bob"])).
  - vm_compute. eexists. reflexivity.
  - vm_compute. reflexivity.
  - vm_compute. reflexivity.
Defined.

(** * The further properties on the sample inputs *)

#[local] Existing Instances fixture_config.dirs fixture_config.linux fixture_config.codec.

(** With a second key [k1] before the key of the signer in the key set, the
    second key is the one that [findKey] returns for the token [fresh]. *)
Lemma findKey_first_match_shadowed :
  findKey fixture_more.authenticator_shadowed
    (fixture.signed "k1" (fixture.claims (Some 7200) None))
  = (Some (jwt.Public fixture_more.key1_other), None).
Proof.
  apply (findKey_first_match fixture_more.authenticator_shadowed
           (fixture.signed "k1" (fixture.claims (Some 7200) None))
           "k1" fixture_more.key1_other [fixture.key2] [fixture.key1]).
  - reflexivity.
  - reflexivity.
  - repeat constructor. done.
  - reflexivity.
Defined.

(** The token [fresh] is accepted; so it parses, names a key of the set and
    verifies under it. *)
Lemma checkTokenValidity_sound_fresh :
  ∃ parsed (kid : string) key c,
    parsesAs "fresh" parsed
    ∧ keyIdentifier parsed = Some kid
    ∧ keyFor (jwks fixture.authenticator) kid = Some key
    ∧ key ∈ jose.JSONWebKeySet.Keys (jwks fixture.authenticator)
    ∧ verifiesUnder parsed key c
    ∧ (time.IsZero (deadline (fixture.world fixture.fs_none)) = false →
       (∀ exp, jwt.Claims.Expiry c = Some exp →
               deadline (fixture.world fixture.fs_none) ≤ jwt.NumericDate_Time exp)
       ∧ (∀ nbf, jwt.Claims.NotBefore c = Some nbf →
                 jwt.NumericDate_Time nbf ≤ deadline (fixture.world fixture.fs_none))
       ∧ (∀ iat, jwt.Claims.IssuedAt c = Some iat →
                 jwt.NumericDate_Time iat ≤ deadline (fixture.world fixture.fs_none))).
Proof.
  apply (checkTokenValidity_sound fixture.authenticator (fixture.world fixture.fs_none)
           (fixture.world fixture.fs_none) "fresh").
  vm_compute. reflexivity.
Defined.

(** Against the key set with the second key [k1] first, the token [fresh]
    of the owner of [fixture.key1] fails on its signature. *)
Lemma checkTokenValidity_signature_invalid_shadowed :
  checkTokenValidity fixture_more.authenticator_shadowed "fresh"
    (fixture.world fixture.fs_none)
  = (Some (fmt.Errorf_s "invalid token: signature does not match the content: "
             (errors.New "square/go-jose: error in cryptographic primitive")),
     fixture.world fixture.fs_none).
Proof.
  apply (checkTokenValidity_signature_invalid fixture_more.authenticator_shadowed
           (fixture.world fixture.fs_none) "fresh"
           (fixture.signed "k1" (fixture.claims (Some 7200) None))
           "k1" fixture_more.key1_other fixture.noClaims).
  - split; [done | reflexivity].
  - reflexivity.
  - reflexivity.
  - reflexivity.
Defined.

(** The authenticator that [NewAuthenticator] makes with an empty key set
    logs in even when the file holds the good token of bob. *)
Lemma GetToken_no_keys_sample :
  is_Some (cachedTokenError
             (NewAuthenticator (jose.JSONWebKeySet.mk []) "hub.docker.com")
             fixture.bob (fixture.world fixture.fs_bob))
  ∧ ∃ rest,
      calls (GetToken (NewAuthenticator (jose.JSONWebKeySet.mk []) "hub.docker.com")
               fixture.bob (fixture.world fixture.fs_bob)).2
      = calls (fixture.world fixture.fs_bob)
        ++ hub.CallLogin
             (hub (NewAuthenticator (jose.JSONWebKeySet.mk []) "hub.docker.com"))
             fixture.bob :: rest.
Proof.
  apply (GetToken_no_keys (NewAuthenticator (jose.JSONWebKeySet.mk []) "hub.docker.com")
           fixture.bob (fixture.world fixture.fs_bob)).
  reflexivity.
Defined.

(** The file holds a token of alice and none of bob: [GetToken] for bob
    validates the empty token, and logs in. *)
Lemma GetToken_cache_miss_sample :
  cachedTokenError fixture.authenticator fixture.bob (fixture.world fixture.fs_alice)
  = Some (fmt.Errorf "empty token")
  ∧ ∃ rest,
      calls (GetToken fixture.authenticator fixture.bob
               (fixture.world fixture.fs_alice)).2
      = calls (fixture.world fixture.fs_alice)
        ++ hub.CallLogin (hub fixture.authenticator) fixture.bob :: rest.
Proof.
  apply (GetToken_cache_miss fixture.authenticator fixture.bob
           (fixture.world fixture.fs_alice)
           (bytes_of (fixture.text {[ "alice" := "stale" ]})) None None
           {[ "alice" := "stale" ]}).
  - reflexivity.
  - vm_compute. reflexivity.
  - right. right. reflexivity.
Defined.

(** The login of alice is refused: the error of [GetToken] is the refusal
    under the messages of the login and of the negotiation, and [errors.Is]
    finds the refusal in it. *)
Lemma GetToken_error_sample :
  "" = ""
  ∧ is_Some (cachedTokenError fixture.authenticator fixture.alice
               (fixture.world fixture.fs_alice))
  ∧ ((∃ hubToken cause,
        hub.Login (hub fixture.authenticator) fixture.alice = (hubToken, Some cause)
        ∧ (fmt.Errorf_w "could not negotiate scan id token: "
                 (fmt.Errorf_w "could not login: " (errors.New "401 Unauthorized")))
          = fmt.Errorf_w "could not negotiate scan id token: "
              (fmt.Errorf_w "could not login: " cause)
        ∧ (called (fixture.world fixture.fs_alice)
           [hub.CallLogin (hub fixture.authenticator) fixture.alice])
          = called (fixture.world fixture.fs_alice)
              [hub.CallLogin (hub fixture.authenticator) fixture.alice]
        ∧ errors.Is (Some (fmt.Errorf_w "could not negotiate scan id token: "
                 (fmt.Errorf_w "could not login: " (errors.New "401 Unauthorized")))) cause = true)
     ∨ (∃ hubToken fresh cause,
          hub.Login (hub fixture.authenticator) fixture.alice = (hubToken, None)
          ∧ hub.GetScanID (hub fixture.authenticator) hubToken = (fresh, Some cause)
          ∧ (fmt.Errorf_w "could not negotiate scan id token: "
                 (fmt.Errorf_w "could not login: " (errors.New "401 Unauthorized")))
            = fmt.Errorf_w "could not negotiate scan id token: "
                (fmt.Errorf_w "could not get scan id: " cause)
          ∧ (called (fixture.world fixture.fs_alice)
           [hub.CallLogin (hub fixture.authenticator) fixture.alice])
            = called (fixture.world fixture.fs_alice)
                [hub.CallLogin (hub fixture.authenticator) fixture.alice;
                 hub.CallGetScanID (hub fixture.authenticator) hubToken]
          ∧ errors.Is (Some (fmt.Errorf_w "could not negotiate scan id token: "
                 (fmt.Errorf_w "could not login: " (errors.New "401 Unauthorized")))) cause = true)
     ∨ (∃ hubToken fresh cause,
          hub.Login (hub fixture.authenticator) fixture.alice = (hubToken, None)
          ∧ hub.GetScanID (hub fixture.authenticator) hubToken = (fresh, None)
          ∧ updateLocalToken fixture.authenticator fixture.alice fresh
              (called (fixture.world fixture.fs_alice)
                 [hub.CallLogin (hub fixture.authenticator) fixture.alice;
                  hub.CallGetScanID (hub fixture.authenticator) hubToken])
            = (Some cause, (called (fixture.world fixture.fs_alice)
           [hub.CallLogin (hub fixture.authenticator) fixture.alice]))
          ∧ (fmt.Errorf_w "could not negotiate scan id token: "
                 (fmt.Errorf_w "could not login: " (errors.New "401 Unauthorized")))
            = fmt.Errorf_w "could not update local token: " cause
          ∧ errors.Is (Some (fmt.Errorf_w "could not negotiate scan id token: "
                 (fmt.Errorf_w "could not login: " (errors.New "401 Unauthorized")))) cause = true)).
Proof.
  apply (GetToken_error fixture.authenticator fixture.alice
           (fixture.world fixture.fs_alice)).
  vm_compute. reflexivity.
Defined.

(** With no tokens file, the token that [GetToken] returns for bob is the
    one of the exchange, and it was saved. *)
Lemma GetToken_success_sample :
  (GetToken fixture.authenticator fixture.bob (fixture.world fixture.fs_none)).2
  = fixture.world fixture.fs_none
    ∧ "fresh" = (getLocalToken fixture.authenticator fixture.bob
                   (fixture.world fixture.fs_none)).1
    ∧ checkTokenValidity fixture.authenticator "fresh" (fixture.world fixture.fs_none)
      = (None, fixture.world fixture.fs_none)
  ∨ is_Some (cachedTokenError fixture.authenticator fixture.bob
               (fixture.world fixture.fs_none))
    ∧ ∃ hubToken,
        hub.Login (hub fixture.authenticator) fixture.bob = (hubToken, None)
        ∧ hub.GetScanID (hub fixture.authenticator) hubToken = ("fresh", None)
        ∧ updateLocalToken fixture.authenticator fixture.bob "fresh"
            (called (fixture.world fixture.fs_none)
               [hub.CallLogin (hub fixture.authenticator) fixture.bob;
                hub.CallGetScanID (hub fixture.authenticator) hubToken])
          = (None,
             (GetToken fixture.authenticator fixture.bob
                (fixture.world fixture.fs_none)).2).
Proof.
  apply (GetToken_success fixture.authenticator fixture.bob
           (fixture.world fixture.fs_none) "fresh").
  vm_compute. reflexivity.
Defined.

(** The first [GetToken] for bob, with the file that holds a token of
    alice, negotiates the token [fresh]; the second returns it from the
    cache, in the same world. *)
Lemma GetToken_then_cached_sample :
  GetToken fixture.authenticator fixture.bob
    (GetToken fixture.authenticator fixture.bob (fixture.world fixture.fs_alice)).2
  = (("fresh", None),
     (GetToken fixture.authenticator fixture.bob (fixture.world fixture.fs_alice)).2).
Proof.
  apply (GetToken_then_cached fixture.authenticator fixture.bob
           (fixture.world fixture.fs_alice)).
  - vm_compute. eexists. reflexivity.
  - vm_compute. reflexivity.
  - intros content perm Hwrite.
    apply (fixture_reads_back fixture.fs_alice _ _ _ perm Hwrite).
    vm_compute. reflexivity.
  - replace (existingTokens fixture.authenticator (fixture.world fixture.fs_alice))
      with ({[ "alice" := "stale" ]} : gmap string string)
      by (vm_compute; reflexivity).
    exact fixture_round_trips_alice_bob.
  - vm_compute. reflexivity.
Defined.

(** The save over the file of mode 0600 writes with the mode 0600. *)
Lemma updateLocalToken_mode_sample :
  ∃ out,
    os.WriteFile (files (fixture.world fixture.fs_alice))
      (tokensPath fixture.authenticator) out (6 * 64)
    = (None,
       files (updateLocalToken fixture.authenticator fixture.bob "fresh"
                (fixture.world fixture.fs_alice)).2).
Proof.
  apply (updateLocalToken_mode fixture.authenticator fixture.bob "fresh"
           (fixture.world fixture.fs_alice)
           (updateLocalToken fixture.authenticator fixture.bob "fresh"
              (fixture.world fixture.fs_alice)).2
           (os.FileInfo.mk (6 * 64)) None).
  - vm_compute. reflexivity.
  - reflexivity.
Defined.

(** The save on the file that its owner cannot read fails on the read, and
    leaves the world as it was. *)
Lemma updateLocalToken_failure_sample :
  fixture.world fixture.fs_unreadable = fixture.world fixture.fs_unreadable
  ∨ ∃ out perm,
      os.WriteFile (files (fixture.world fixture.fs_unreadable))
        (tokensPath fixture.authenticator) out perm
      = (Some (PathError "open" fixture.path syscall.EACCES),
         files (fixture.world fixture.fs_unreadable))
      ∧ fixture.world fixture.fs_unreadable
        = withFiles (fixture.world fixture.fs_unreadable)
            (files (fixture.world fixture.fs_unreadable)).
Proof.
  apply (updateLocalToken_failure fixture.authenticator fixture.bob "fresh"
           (fixture.world fixture.fs_unreadable)).
  vm_compute. reflexivity.
Defined.

(** The codec gives back the mapping of alice alone. *)
Lemma fixture_round_trips_alice : roundTrips {[ "alice" := "stale" ]}.
Proof.
  intros content Hencode. vm_compute in Hencode. injection Hencode as <-.
  vm_compute. reflexivity.
Qed.

(** The decoder that goes on after a value of the wrong type gives back the
    mapping of alice and bob. *)
Lemma fixture_round_trips_mixed :
  roundTrips (Codec := fixture_more.codec_mixed)
    (<[ "bob" := "fresh" ]> {[ "alice" := "stale"; "bob" := "" ]}).
Proof.
  intros content Hencode. vm_compute in Hencode. injection Hencode as <-.
  vm_compute. reflexivity.
Qed.

(** The file in which the token of bob is a number: the decoder reports the
    error and has stored the token of alice; the save of a token for bob
    returns nil, and has written the token of alice with it. *)
Lemma updateLocalToken_keeps_decoded_sample :
  ∃ out perm,
    json.Marshal (Codec := fixture_more.codec_mixed)
      (<[ "bob" := "fresh" ]> {[ "alice" := "stale"; "bob" := "" ]}) = (out, None)
    ∧ os.WriteFile (files (fixture.world fixture_more.fs_mixed))
        (tokensPath fixture.authenticator) out perm
      = (None,
         files (updateLocalToken (Codec := fixture_more.codec_mixed)
                  fixture.authenticator fixture.bob "fresh"
                  (fixture.world fixture_more.fs_mixed)).2)
    ∧ (readsBack (fixture.world fixture_more.fs_mixed)
         (updateLocalToken (Codec := fixture_more.codec_mixed)
            fixture.authenticator fixture.bob "fresh"
            (fixture.world fixture_more.fs_mixed)).2
         (tokensPath fixture.authenticator) →
       roundTrips (Codec := fixture_more.codec_mixed)
         (<[ "bob" := "fresh" ]> {[ "alice" := "stale"; "bob" := "" ]}) →
       persisted (Codec := fixture_more.codec_mixed) fixture.authenticator
         (updateLocalToken (Codec := fixture_more.codec_mixed)
            fixture.authenticator fixture.bob "fresh"
            (fixture.world fixture_more.fs_mixed)).2
         (<[ "bob" := "fresh" ]> {[ "alice" := "stale"; "bob" := "" ]})).
Proof.
  apply (updateLocalToken_keeps_decoded (Codec := fixture_more.codec_mixed)
           fixture.authenticator fixture.bob "fresh"
           (fixture.world fixture_more.fs_mixed)
           (updateLocalToken (Codec := fixture_more.codec_mixed)
              fixture.authenticator fixture.bob "fresh"
              (fixture.world fixture_more.fs_mixed)).2
           (bytes_of fixture_more.text_mixed)
           (Some (errors.New "json: cannot unmarshal number into Go value of type string"))
           {[ "alice" := "stale"; "bob" := "" ]}).
  - reflexivity.
  - vm_compute. reflexivity.
  - vm_compute. reflexivity.
Defined.

(** Over the file that is no JSON, the save of the token of alice and then
    of the token of bob: both are loaded. *)
Lemma save_two_users_sample :
  getLocalToken fixture.authenticator fixture.alice
    (updateLocalToken fixture.authenticator fixture.bob "fresh"
       (updateLocalToken fixture.authenticator fixture.alice "stale"
          (fixture.world fixture.fs_garbage)).2).2
  = ("stale",
     (updateLocalToken fixture.authenticator fixture.bob "fresh"
        (updateLocalToken fixture.authenticator fixture.alice "stale"
           (fixture.world fixture.fs_garbage)).2).2)
  ∧ getLocalToken fixture.authenticator fixture.bob
      (updateLocalToken fixture.authenticator fixture.bob "fresh"
         (updateLocalToken fixture.authenticator fixture.alice "stale"
            (fixture.world fixture.fs_garbage)).2).2
    = ("fresh",
       (updateLocalToken fixture.authenticator fixture.bob "fresh"
          (updateLocalToken fixture.authenticator fixture.alice "stale"
             (fixture.world fixture.fs_garbage)).2).2).
Proof.
  apply (save_two_users fixture.authenticator fixture.alice fixture.bob "stale" "fresh"
           (fixture.world fixture.fs_garbage)
           (updateLocalToken fixture.authenticator fixture.alice "stale"
              (fixture.world fixture.fs_garbage)).2).
  - done.
  - vm_compute. reflexivity.
  - intros content perm Hwrite.
    apply (fixture_reads_back fixture.fs_garbage _ _ _ perm Hwrite).
    vm_compute. reflexivity.
  - replace (existingTokens fixture.authenticator (fixture.world fixture.fs_garbage))
      with (∅ : gmap string string) by (vm_compute; reflexivity).
    rewrite insert_empty. exact fixture_round_trips_alice.
  - vm_compute. reflexivity.
  - intros content perm Hwrite.
    refine (fixture_reads_back _ _ _ _ perm Hwrite _).
    vm_compute. reflexivity.
  - replace (existingTokens fixture.authenticator (fixture.world fixture.fs_garbage))
      with (∅ : gmap string string) by (vm_compute; reflexivity).
    rewrite insert_empty. exact fixture_round_trips_alice_bob.
Defined.

(** A write in the in-memory file system that reported no error has put the
    content in the file. *)
Lemma fixture_write_content (fs fs' : gmap string fixture.MemFile) (name : string)
    (content : list Byte.byte) (perm : Z) :
  fixture.mem_WriteFile fs name content perm = (None, fs') →
  fixture.data <$> fs' !! name = Some content.
Proof.
  unfold fixture.mem_WriteFile. intros Hwrite.
  destruct (fs !! name) as [f|].
  - destruct (fixture.ownerWrite (fixture.mode f)); [|done].
    injection Hwrite as <-. by rewrite lookup_insert_eq.
  - injection Hwrite as <-. by rewrite lookup_insert_eq.
Qed.

(** The in-memory file system with the sample configuration in its file
    gives back what was written there. *)
Lemma fixture_config_reads_back :
  configReadsBack (Sys := fixture.sys) fixture_config.fs_snyk.
Proof.
  intros fs content perm Hwrite.
  apply fixture_write_content in Hwrite.
  vm_compute in Hwrite. injection Hwrite as <-. vm_compute. reflexivity.
Qed.

(** And so with the zero configuration in its file. *)
Lemma fixture_config_reads_back_zero :
  configReadsBack (Sys := fixture.sys)
    {[ fixture_config.path :=
         fixture.mkMemFile FileMode_0644
           (bytes_of (fixture_config.text Config_zero)) ]}.
Proof.
  intros fs content perm Hwrite.
  apply fixture_write_content in Hwrite.
  vm_compute in Hwrite. injection Hwrite as <-. vm_compute. reflexivity.
Qed.

(** The codec gives back the two sample configurations. *)
Lemma fixture_config_round_trips_snyk : configRoundTrips fixture_config.snyk.
Proof.
  intros content Hencode. vm_compute in Hencode. injection Hencode as <-.
  vm_compute. reflexivity.
Qed.

Lemma fixture_config_round_trips_zero : configRoundTrips Config_zero.
Proof.
  intros content Hencode. vm_compute in Hencode. injection Hencode as <-.
  vm_compute. reflexivity.
Qed.

(** The save of the sample configuration, with no file: the directory is
    made and the file is written with the mode 0644. *)
Lemma SaveConfigFile_ok_sample :
  ∃ out fs1,
    MarshalConfig fixture_config.snyk = (out, None)
    ∧ osdir.MkdirAll (files (fixture.world fixture_config.fs_none))
        (host.Join [host.Dir; "scan"]) FileMode_0744 = (None, fs1)
    ∧ os.WriteFile fs1 configPath out FileMode_0644
      = (None, files (fixture.world fixture_config.fs_snyk))
    ∧ fixture.world fixture_config.fs_snyk
      = withFiles (fixture.world fixture_config.fs_none)
          (files (fixture.world fixture_config.fs_snyk)).
Proof.
  apply (SaveConfigFile_ok fixture_config.snyk (fixture.world fixture_config.fs_none)
           (fixture.world fixture_config.fs_snyk)).
  vm_compute. reflexivity.
Defined.

(** The save under the Docker directory that its owner cannot write fails
    on the creation of the directory, and nothing is written. *)
Lemma SaveConfigFile_error_sample :
  (fixture.world fixture_config.fs_locked = fixture.world fixture_config.fs_locked
   ∧ (MarshalConfig fixture_config.snyk).2 = Some fixture_config.save_denied)
  ∨ (∃ cause fs1,
       osdir.MkdirAll (files (fixture.world fixture_config.fs_locked))
         (host.Join [host.Dir; "scan"]) FileMode_0744 = (Some cause, fs1)
       ∧ Some fixture_config.save_denied
         = pkgerrors.Wrap (Some cause)
             "failed to create docker scan configuration directory"
       ∧ errors.Is (Some fixture_config.save_denied) cause = true
       ∧ fixture.world fixture_config.fs_locked
         = withFiles (fixture.world fixture_config.fs_locked) fs1)
  ∨ (∃ cause out fs1,
       osdir.MkdirAll (files (fixture.world fixture_config.fs_locked))
         (host.Join [host.Dir; "scan"]) FileMode_0744 = (None, fs1)
       ∧ os.WriteFile fs1 configPath out FileMode_0644
         = (Some cause, files (fixture.world fixture_config.fs_locked))
       ∧ Some fixture_config.save_denied
         = pkgerrors.Wrap (Some cause)
             "failed to write docker scan configuration file"
       ∧ errors.Is (Some fixture_config.save_denied) cause = true).
Proof.
  apply (SaveConfigFile_error fixture_config.snyk
           (fixture.world fixture_config.fs_locked)).
  vm_compute. reflexivity.
Defined.

(** The sample configuration is saved over the file that is cut short, and
    read back. *)
Lemma save_then_read_config_sample :
  ReadConfigFile (fixture.world fixture_config.fs_snyk)
  = ((fixture_config.snyk, None), fixture.world fixture_config.fs_snyk).
Proof.
  apply (save_then_read_config fixture_config.snyk
           (fixture.world fixture_config.fs_cut)
           (fixture.world fixture_config.fs_snyk)).
  - vm_compute. reflexivity.
  - right. right. vm_compute. reflexivity.
  - exact fixture_config_reads_back.
  - exact fixture_config_round_trips_snyk.
Defined.

(** On Linux, with no configuration file, [ReadConfigFile] makes the file
    of the zero configuration and returns the zero configuration. *)
Lemma ReadConfigFile_creates_default_sample :
  ReadConfigFile (fixture.world fixture_config.fs_none)
  = ((Config_zero, None),
     fixture.world
       {[ fixture_config.path :=
            fixture.mkMemFile FileMode_0644
              (bytes_of (fixture_config.text Config_zero)) ]}).
Proof.
  apply (ReadConfigFile_creates_default (fixture.world fixture_config.fs_none)
           (fixture.world
              {[ fixture_config.path :=
                   fixture.mkMemFile FileMode_0644
                     (bytes_of (fixture_config.text Config_zero)) ]})
           (os.FileInfo.mk 0)
           (Some (PathError "stat" fixture_config.path syscall.ENOENT))).
  - done.
  - done.
  - reflexivity.
  - reflexivity.
  - vm_compute. reflexivity.
  - exact fixture_config_reads_back_zero.
  - exact fixture_config_round_trips_zero.
Defined.

(** On Linux, with no configuration file and a Docker directory that its
    owner cannot write, [ReadConfigFile] returns the error of the creation
    of the initial file. *)
Lemma ReadConfigFile_creation_failure_sample :
  ReadConfigFile (fixture.world fixture_config.fs_locked)
  = ((Config_zero,
      pkgerrors.Wrapf (Some fixture_config.save_denied)
        ("failed to create initial scan configuration file "
         +:+ host.Quote configPath)),
     fixture.world fixture_config.fs_locked).
Proof.
  apply (ReadConfigFile_creation_failure (fixture.world fixture_config.fs_locked)
           (fixture.world fixture_config.fs_locked)
           (os.FileInfo.mk 0)
           (Some (PathError "stat" fixture_config.path syscall.ENOENT))).
  - done.
  - done.
  - reflexivity.
  - reflexivity.
  - vm_compute. reflexivity.
Defined.

(** On macOS, with no configuration file, no file is made: the read fails
    and its error is returned. *)
Lemma ReadConfigFile_read_failure_sample :
  ReadConfigFile (Platform := fixture_config.darwin) (fixture.world fixture_config.fs_none)
  = ((Config_zero,
      pkgerrors.Wrap (Some (PathError "open" fixture_config.path syscall.ENOENT))
        "failed to read docker scan configuration file. Please restart Docker Desktop"),
     withFiles (fixture.world fixture_config.fs_none)
       (osdir.Remove (files (fixture.world fixture_config.fs_none))
          (configPath (Platform := fixture_config.darwin))).2).
Proof.
  apply (ReadConfigFile_read_failure (Platform := fixture_config.darwin)
           (fixture.world fixture_config.fs_none) []
           (PathError "open" fixture_config.path syscall.ENOENT)).
  - right. left. reflexivity.
  - reflexivity.
Defined.

(** The configuration file that is cut short is removed, and the error of
    the decoding is returned. *)
Lemma ReadConfigFile_invalid_content_sample :
  ReadConfigFile (fixture.world fixture_config.fs_cut)
  = ((Config_zero,
      pkgerrors.Wrapf (Some (errors.New "unexpected end of JSON input"))
        ("invalid docker scan configuration file " +:+ configPath
         +:+ ". Please restart Docker Desktop")),
     withFiles (fixture.world fixture_config.fs_cut)
       (osdir.Remove (files (fixture.world fixture_config.fs_cut)) configPath).2).
Proof.
  apply (ReadConfigFile_invalid_content (fixture.world fixture_config.fs_cut)
           (bytes_of "{") Config_zero (errors.New "unexpected end of JSON input")).
  - right. right. vm_compute. reflexivity.
  - reflexivity.
  - vm_compute. reflexivity.
Defined.

(** The sample configuration is read from its file, which is left alone. *)
Lemma ReadConfigFile_sound_sample :
  (∃ buf, os.ReadFile (files (fixture.world fixture_config.fs_snyk)) configPath
          = (buf, None)
          ∧ UnmarshalConfig buf Config_zero = (fixture_config.snyk, None))
  ∧ (fixture.world fixture_config.fs_snyk = fixture.world fixture_config.fs_snyk
     ∨ (host.GOOS ≠ "windows" ∧ host.GOOS ≠ "darwin"
        ∧ SaveConfigFile Config_zero (fixture.world fixture_config.fs_snyk)
          = (None, fixture.world fixture_config.fs_snyk))).
Proof.
  apply (ReadConfigFile_sound (fixture.world fixture_config.fs_snyk)
           (fixture.world fixture_config.fs_snyk) fixture_config.snyk).
  vm_compute. reflexivity.
Defined.

(** * What the claims on the store say of every string and of every content *)

(** C9 as stated fails.  With the codec that coerces to UTF-8, the save of
    the token of the one byte 0xFF for bob, with no tokens file, reports no
    error, and the token then loaded for bob is U+FFFD, another string. *)
Lemma save_then_load_coerced :
  updateLocalToken (Codec := fixture_utf8.codec) fixture.authenticator
    fixture_utf8.bob fixture_utf8.xFF (fixture.world fixture.fs_none)
  = (None,
     fixture.world
       {[ fixture.path :=
            fixture.mkMemFile FileMode_0644
              (bytes_of (fixture_utf8.object [ ("bob", fixture_utf8.uFFFD) ])) ]})
  ∧ getLocalToken (Codec := fixture_utf8.codec) fixture.authenticator fixture_utf8.bob
      (fixture.world
         {[ fixture.path :=
              fixture.mkMemFile FileMode_0644
                (bytes_of (fixture_utf8.object [ ("bob", fixture_utf8.uFFFD) ])) ]})
    = (fixture_utf8.uFFFD,
       fixture.world
         {[ fixture.path :=
              fixture.mkMemFile FileMode_0644
                (bytes_of (fixture_utf8.object [ ("bob", fixture_utf8.uFFFD) ])) ]})
  ∧ fixture_utf8.uFFFD ≠ fixture_utf8.xFF.
Proof.
  split; [vm_compute; reflexivity|]. split; [vm_compute; reflexivity|].
  vm_compute. discriminate.
Qed.


(** C10, on the content in which the token of bob is a number.  It is not a
    map from strings to strings: the decoder reports the error of the type.
    It has stored the token of alice by then, and the save of a token for
    bob, which drops the error, returns nil and writes both entries: the
    token of alice is not erased, and is loaded after the save. *)
Lemma save_over_mixed_content_keeps_entry :
  json.Unmarshal (Codec := fixture_more.codec_mixed)
    (bytes_of fixture_more.text_mixed) ∅
  = ({[ "alice" := "stale"; "bob" := "" ]},
     Some (errors.New "json: cannot unmarshal number into Go value of type string"))
  ∧ updateLocalToken (Codec := fixture_more.codec_mixed) fixture.authenticator
      fixture.bob "fresh" (fixture.world fixture_more.fs_mixed)
    = (None,
       fixture.world
         {[ fixture.path :=
              fixture.mkMemFile FileMode_0644
                (bytes_of (fixture.text {[ "alice" := "stale"; "bob" := "fresh" ]})) ]})
  ∧ getLocalToken (Codec := fixture_more.codec_mixed) fixture.authenticator
      fixture.alice
      (fixture.world
         {[ fixture.path :=
              fixture.mkMemFile FileMode_0644
                (bytes_of (fixture.text {[ "alice" := "stale"; "bob" := "fresh" ]})) ]})
    = ("stale",
       fixture.world
         {[ fixture.path :=
              fixture.mkMemFile FileMode_0644
                (bytes_of (fixture.text {[ "alice" := "stale"; "bob" := "fresh" ]})) ]}).
Proof. repeat split; vm_compute; reflexivity. Qed.

(** A date near the largest [int64].  The token [far] is signed by the key
    [k1] of the key set and expires 1024 s before the largest [int64]: the
    instant that the library makes of that date is before year 1, and the
    validation returns the error of the expiry. *)
Lemma checkTokenValidity_rejects_wrapped_expiry :
  jwt.NumericDate_Time fixture_far.far < deadline (fixture.world fixture.fs_none)
  ∧ checkTokenValidity (Lib := fixture_far.lib) fixture.authenticator "far"
      (fixture.world fixture.fs_none)
    = (Some (fmt.Errorf_s "token has expired: " jwt.ErrExpired),
       fixture.world fixture.fs_none).
Proof. split; vm_compute; reflexivity. Qed.
